(** * okta_aws_login: a shallow embedding and its specification

    The development follows [okta_aws_login.py].  Python dictionaries are
    finite maps ([gmap]), strings are [string], Python's [None] is [None],
    and code that can raise or call [sys.exit] lives in a small state and
    error monad.  The libraries the script calls (the HTML and XML parsers,
    the HTTP session, the STS client, the URL parser, the codec of the
    locale, the printing and parsing of configparser) are fields of a
    record [World]: the script's own logic is embedded, theirs is not. *)

From Stdlib Require Import ZArith Ascii String List Lia Bool.
From stdpp Require Import base option list strings gmap fin_maps.

Local Open Scope string_scope.
Local Open Scope Z_scope.

(** ** Python strings *)

Module PyStr.

(** [str.lower], on the ASCII letters.  The tests below look for the ASCII
    words "user" and "pass"; no character outside A-Z lower-cases to one of
    their letters. *)
Definition ascii_lower (c : ascii) : ascii :=
  let n := nat_of_ascii c in
  if (65 <=? n)%nat && (n <=? 90)%nat then ascii_of_nat (n + 32) else c.

Fixpoint lower (s : string) : string :=
  match s with
  | EmptyString => EmptyString
  | String c t => String (ascii_lower c) (lower t)
  end.

(** [sub in s] *)
Fixpoint str_in (sub s : string) : bool :=
  String.prefix sub s
  || match s with
     | EmptyString => false
     | String _ t => str_in sub t
     end.

(** [s.split(sep)] for a one-character separator; [acc] holds the
    characters of the current piece. *)
Fixpoint split_from (sep : ascii) (acc s : string) : list string :=
  match s with
  | EmptyString => [acc]
  | String c t =>
      if Ascii.eqb c sep then acc :: split_from sep EmptyString t
      else split_from sep (acc +:+ String c EmptyString) t
  end.

Definition split (sep : ascii) (s : string) : list string :=
  split_from sep EmptyString s.

(** [len(s)] *)
Definition len (s : string) : Z := Z.of_nat (String.length s).

End PyStr.

(** ** Parsed HTML

    [BeautifulSoup(text, "html.parser")] is kept as the list of the
    document's tags in document order, each with its attribute dictionary. *)

Record Tag := mkTag { tag_name : string; attrs : gmap string string }.

(** [tag.get(key)] and [tag.get(key, default)] *)
Definition Tag_get (t : Tag) (key : string) : option string := attrs t !! key.
Definition Tag_get_default (t : Tag) (key dflt : string) : string :=
  default dflt (attrs t !! key).

(** [soup.find_all(re.compile('(A|B)'))]: the tags whose name the pattern
    is found in. *)
Definition re_search_alt (alts : list string) (s : string) : bool :=
  existsb (fun a => PyStr.str_in a s) alts.

Definition find_all_re (alts : list string) (soup : list Tag) : list Tag :=
  List.filter (fun t => re_search_alt alts (tag_name t)) soup.

(** [soup.find_all('input')]: the tags with exactly that name. *)
Definition find_all (name : string) (soup : list Tag) : list Tag :=
  List.filter (fun t => String.eqb (tag_name t) name) soup.

(** ** The login form payload (okta_password_login, the first loop) *)

Definition payload_step (username password : string)
    (payload : gmap string string) (inputtag : Tag) : gmap string string :=
  let name := Tag_get_default inputtag "name" "" in
  let value := Tag_get_default inputtag "value" "" in
  if PyStr.str_in "user" (PyStr.lower name) then <[name := username]> payload
  else if PyStr.str_in "pass" (PyStr.lower name) then <[name := password]> payload
  else <[name := value]> payload.

Definition build_payload (username password : string) (formsoup : list Tag)
  : gmap string string :=
  fold_left (payload_step username password)
            (find_all_re ["INPUT"; "input"] formsoup) ∅.

(** What one field contributes to the payload. *)
Definition field_value (username password : string) (inputtag : Tag) : string :=
  let name := Tag_get_default inputtag "name" "" in
  if PyStr.str_in "user" (PyStr.lower name) then username
  else if PyStr.str_in "pass" (PyStr.lower name) then password
  else Tag_get_default inputtag "value" "".

Definition field_name (inputtag : Tag) : string :=
  Tag_get_default inputtag "name" "".

(** The fields named [n], in document order. *)
Definition fields_named (n : string) (inputs : list Tag) : list Tag :=
  List.filter (fun t => String.eqb (field_name t) n) inputs.

Definition input_tag (name value : string) : Tag :=
  mkTag "input" (<["name" := name]> (<["value" := value]> ∅)).


(** ** Exceptions, [sys.exit] and the effect monad *)

Inductive exn :=
  | NameError (name : string)
  | UnboundLocalError (name : string)
  | KeyError (key : string)
  | IndexError
  | AttributeError
  | ValueError (msg : string)
  | DuplicateSectionError (section : string)
  | NoSectionError (section : string)
  | IsADirectoryError (path : string)
  | LibraryError (msg : string)
  | PermissionError (path : string)
  | FileNotFoundError (path : string)
  | NotADirectoryError (path : string)
  | UnicodeDecodeError
  | MissingSectionHeaderError
  | DuplicateOptionError (section option : string)
  | ParsingError.

(** How a computation ends: with a value, in [sys.exit(code)], or in an
    exception that nothing catches. *)
Inductive result (A : Type) :=
  | Ok (a : A)
  | SysExit (code : Z)
  | Raise (e : exn).
Arguments Ok {A} a.
Arguments SysExit {A} code.
Arguments Raise {A} e.

(** What a call that may raise gives back: a value or an exception.
    Library calls and the pure steps that can fail have this type. *)
Inductive fallible (A : Type) :=
  | Returns (a : A)
  | Raises (e : exn).
Arguments Returns {A} a.
Arguments Raises {A} e.

(** The exit status the interpreter reports: 0 when the script runs to its
    end, the argument of [sys.exit], and 1 after an uncaught exception. *)
Definition exit_status {A} (r : result A) : Z :=
  match r with
  | Ok _ => 0
  | SysExit code => code
  | Raise _ => 1
  end.

(** ** Files

    A path holds a regular file (its content and permission bits) or a
    directory, or it is barred: a component of it is missing, is no
    directory or may not be searched, and the system answers every attempt
    to open or create something there with the error [e].  A path that
    holds nothing is one where a file can be created.

    The files belong to the user who runs the script, who is not the
    superuser: the owner's permission bits decide what may be opened.

    The content of a file of the text store is its bytes.  The credentials
    file is kept as configparser sees it: what [RawConfigParser.read]
    makes of the text, which is a configuration (the DEFAULT options and a
    dictionary of sections, each a dictionary of options) or the error the
    parser raises on a text it refuses. *)

Record file (A : Type) := mkFile { content : A; mode : Z }.
Arguments mkFile {A} content mode.
Arguments content {A} f.
Arguments mode {A} f.

Inductive node (A : Type) :=
  | RegularFile (f : file A)
  | Directory
  | Barred (e : exn).
Arguments RegularFile {A} f.
Arguments Directory {A}.
Arguments Barred {A} e.

(** The owner's read bit (0o400) and write bit (0o200). *)
Definition owner_may_read (m : Z) : bool := Z.testbit m 8.
Definition owner_may_write (m : Z) : bool := Z.testbit m 7.
Arguments owner_may_read : simpl never.
Arguments owner_may_write : simpl never.

Record config := mkConfig {
  defaults : gmap string string;
  sections : gmap string (gmap string string)
}.

Record state := mkState {
  files : gmap string (node string);
  ini_files : gmap string (node (fallible config));
  stdout : list string
}.

Definition M (A : Type) : Type := state -> result A * state.

Definition ret {A} (a : A) : M A := fun st => (Ok a, st).

Definition bind {A B} (m : M A) (k : A -> M B) : M B :=
  fun st =>
    match m st with
    | (Ok a, st') => k a st'
    | (SysExit code, st') => (SysExit code, st')
    | (Raise e, st') => (Raise e, st')
    end.

Notation "'let*' x := m 'in' k" := (bind m (fun x => k))
  (at level 10, x name, m at level 100, k at level 200).
Notation "'exec' m 'then' k" := (bind m (fun _ => k))
  (at level 10, m at level 100, k at level 200).

(** The outcome of a call that may raise, the state unchanged. *)
Definition lift {A} (r : fallible A) : M A :=
  fun st =>
    match r with
    | Returns a => (Ok a, st)
    | Raises e => (Raise e, st)
    end.

Definition raise {A} (e : exn) : M A := fun st => (Raise e, st).
Definition sys_exit {A} (code : Z) : M A := fun st => (SysExit code, st).

Definition print (line : string) : M unit :=
  fun st => (Ok tt, mkState (files st) (ini_files st) (stdout st ++ [line])).

Definition get_state : M state := fun st => (Ok st, st).

Definition set_files (fs : gmap string (node string)) : M unit :=
  fun st => (Ok tt, mkState fs (ini_files st) (stdout st)).

Definition set_ini_files (cs : gmap string (node (fallible config)))
  : M unit :=
  fun st => (Ok tt, mkState (files st) cs (stdout st)).

(** ** The world outside the script *)

Record Response := mkResponse {
  url : string;
  text : string;
  cookies : gmap string string
}.

(** The two components of [urlparse]'s result the script reads. *)
Record ParseResult := mkParseResult { scheme : string; netloc : string }.

(** An [xml.etree.ElementTree] element. *)
Unset Elimination Schemes.
Inductive Element :=
  | mkElement (tag : string) (attrib : gmap string string)
              (etext : option string) (children : list Element).
Set Elimination Schemes.

(** The [Credentials] of an STS response; [Expiration], like every
    [datetime] here, in microseconds since the epoch. *)
Record Credentials := mkCredentials {
  AccessKeyId : string;
  SecretAccessKey : string;
  SessionToken : string;
  Expiration : Z
}.

(** The parsed command line: [args.username], [args.profile],
    [args.verbose], [args.sid]. *)
Record Args := mkArgs {
  args_username : option string;
  args_profile : option string;
  args_verbose : bool;
  args_sid : option string
}.

Record World := mkWorld {
  args : Args;
  environ : gmap string string;
  (** the call [raw_input()]; the name is not defined under Python 3 *)
  raw_input : fallible string;
  (** [getpass.getpass(prompt=...)] *)
  getpass : string -> string;
  (** [expanduser("~")] *)
  home : string;
  umask : Z;
  (** [bytes.decode] in the encoding of the locale, which [open] uses for
      a file read as text *)
  decode : string -> fallible string;
  (** what [RawConfigParser.read] makes of the text that
      [RawConfigParser.write] prints for a configuration *)
  config_reread : config -> fallible config;
  (** [session.get(url, cookies=...)], redirects followed *)
  session_get : string -> gmap string string -> fallible Response;
  (** [session.post(url, params=...)] *)
  session_post : string -> gmap string string -> fallible Response;
  (** [BeautifulSoup(text, "html.parser")] *)
  BeautifulSoup : string -> list Tag;
  urlparse : string -> ParseResult;
  (** [ET.fromstring(base64.b64decode(assertion))] *)
  fromstring_b64decode : string -> fallible Element;
  (** [sts_client.assume_role_with_saml(...)['Credentials']] *)
  assume_role_with_saml : string -> string -> string -> fallible Credentials;
  (** [datetime.now(timezone.utc)] *)
  datetime_now : Z
}.

(** ** okta_password_login *)

(** The second loop: the submission target. *)
Definition form_step (parsedurl : ParseResult) (idpauthformsubmiturl : string)
    (formtag : Tag) : string :=
  match Tag_get formtag "action" with
  | Some action =>
      if String.eqb action "" then idpauthformsubmiturl
      else scheme parsedurl +:+ "://" +:+ netloc parsedurl +:+ action
  | None => idpauthformsubmiturl
  end.

Definition form_submit_url (w : World) (idp_entry_url final_url : string)
    (formsoup : list Tag) : string :=
  fold_left (form_step (urlparse w idp_entry_url))
            (find_all_re ["FORM"; "form"] formsoup) final_url.

(** The returned dictionary, with its keys ['response'] and ['sid']. *)
Record LoginResult := mkLoginResult {
  lr_response : Response;
  lr_sid : string
}.

Definition okta_password_login (w : World)
    (username password idp_entry_url : string) : M LoginResult :=
  let* formresponse := lift (session_get w idp_entry_url ∅) in
  let idpauthformsubmiturl := url formresponse in
  let formsoup := BeautifulSoup w (text formresponse) in
  let payload := build_payload username password formsoup in
  let idpauthformsubmiturl :=
    form_submit_url w idp_entry_url idpauthformsubmiturl formsoup in
  let* response := lift (session_post w idpauthformsubmiturl payload) in
  if PyStr.str_in "Sign in failed!" (text response) then
    exec print "Sign in failed!" then sys_exit 1
  else
    match cookies response !! "sid" with
    | Some sid => ret (mkLoginResult response sid)
    | None => raise (KeyError "sid")
    end.

(** ** write_sid_file *)

(** [os.write] on a descriptor just opened without [O_TRUNC] or
    [O_APPEND]: the bytes replace those at the start of the file, and what
    the file held beyond them stays. *)
Fixpoint str_drop (n : nat) (s : string) : string :=
  match n, s with
  | O, _ => s
  | S n', EmptyString => EmptyString
  | S n', String _ t => str_drop n' t
  end.

Definition write_at_start (data old : string) : string :=
  data +:+ str_drop (String.length data) old.

(** [os.open(path, os.O_WRONLY|os.O_CREAT, mode=m)]: an existing file is
    opened as it is, if its owner may write it; a missing one is created
    empty, with the bits of [m] the umask lets through. *)
Definition os_open_wronly_creat (w : World) (path : string) (m : Z)
  : M (file string) :=
  let* st := get_state in
  match files st !! path with
  | Some (RegularFile f) =>
      if owner_may_write (mode f) then ret f
      else raise (PermissionError path)
  | Some Directory => raise (IsADirectoryError path)
  | Some (Barred e) => raise e
  | None =>
      let f := mkFile "" (Z.land m (Z.lnot (umask w))) in
      exec set_files (<[path := RegularFile f]> (files st)) then ret f
  end.

Definition write_sid_file (w : World) (sid_file sid : string) : M unit :=
  let* sid_cache_file := os_open_wronly_creat w sid_file 384 (* 0o600 *) in
  let* st := get_state in
  set_files (<[sid_file :=
      RegularFile (mkFile (write_at_start sid (content sid_cache_file))
                          (mode sid_cache_file))]> (files st)).

(** ** okta_cookie_login *)

Definition okta_cookie_login (w : World) (sid idp_entry_url : string)
  : M Response :=
  let cookie_dict := <["sid" := sid]> (∅ : gmap string string) in
  lift (session_get w idp_entry_url cookie_dict).

(** ** get_saml_assertion *)

Fixpoint first_SAMLResponse (inputs : list Tag) : option string :=
  match inputs with
  | [] => None
  | inputtag :: rest =>
      if bool_decide (Tag_get inputtag "name" = Some "SAMLResponse")
      then Tag_get inputtag "value"
      else first_SAMLResponse rest
  end.

Definition get_saml_assertion (w : World) (response : Response)
  : option string :=
  let soup := BeautifulSoup w (text response) in
  first_SAMLResponse (find_all "input" soup).

(** ** get_arns_from_assertion *)

Definition elem_tag (e : Element) : string :=
  match e with mkElement tag _ _ _ => tag end.
Definition elem_get (e : Element) (key : string) : option string :=
  match e with mkElement _ attrib _ _ => attrib !! key end.
Definition elem_text (e : Element) : option string :=
  match e with mkElement _ _ etext _ => etext end.

(** [e.iter()]: the element and its descendants, in document order. *)
Fixpoint iter_all (e : Element) : list Element :=
  match e with
  | mkElement _ _ _ children => e :: List.flat_map iter_all children
  end.

(** [e.iter(tag)] *)
Definition iter (e : Element) (tag : string) : list Element :=
  List.filter (fun x => String.eqb (elem_tag x) tag) (iter_all e).

Definition urn : string := "{urn:oasis:names:tc:SAML:2.0:assertion}".
Definition urn_attribute : string := urn +:+ "Attribute".
Definition urn_attributevalue : string := urn +:+ "AttributeValue".
Definition role_url : string := "https://aws.amazon.com/SAML/Attributes/Role".

(** The variable [arns] during the two loops: [None] while nothing has
    been assigned to it, [Some t] once it holds the [.text] of an
    AttributeValue (itself [None] for an element without text). *)
Definition arns_inner (arns : option (option string))
    (saml2attribute : Element) : option (option string) :=
  fold_left (fun _ saml2attributevalue => Some (elem_text saml2attributevalue))
            (iter saml2attribute urn_attributevalue) arns.

Definition arns_outer (root : Element) : option (option string) :=
  fold_left
    (fun arns saml2attribute =>
       if bool_decide (elem_get saml2attribute "Name" = Some role_url)
       then arns_inner arns saml2attribute
       else arns)
    (iter root urn_attribute) None.

Record ArnDict := mkArnDict {
  RoleArn : string;
  PrincipalArn : string;
  SAMLAssertion : string
}.

(** [l[i]] on a Python list *)
Definition py_index {A} (l : list A) (i : nat) : fallible A :=
  match l !! i with
  | Some x => Returns x
  | None => Raises IndexError
  end.

(** The function after the parse: from the root element to the dictionary. *)
Definition arns_from_root (root : Element) (assertion : string)
  : fallible ArnDict :=
  match arns_outer root with
  | None => Raises (UnboundLocalError "arns")
  | Some None => Raises AttributeError
  | Some (Some arns) =>
      match py_index (PyStr.split "," arns) 1 with
      | Returns role =>
          match py_index (PyStr.split "," arns) 0 with
          | Returns principal => Returns (mkArnDict role principal assertion)
          | Raises e => Raises e
          end
      | Raises e => Raises e
      end
  end.

Definition get_arns_from_assertion (w : World) (assertion : string)
  : M ArnDict :=
  let* root := lift (fromstring_b64decode w assertion) in
  lift (arns_from_root root assertion).

(** The texts of the AttributeValue elements of the Role attributes, in
    document order. *)
Definition role_values (root : Element) : list (option string) :=
  List.flat_map
    (fun a => List.map elem_text (iter a urn_attributevalue))
    (List.filter
       (fun a => bool_decide (elem_get a "Name" = Some role_url))
       (iter root urn_attribute)).

(** ** get_sts_token *)

Definition get_sts_token (w : World)
    (RoleArn PrincipalArn SAMLAssertion : string) : M Credentials :=
  lift (assume_role_with_saml w RoleArn PrincipalArn SAMLAssertion).

(** ** write_aws_creds, over configparser.RawConfigParser *)

Definition empty_config : config := mkConfig ∅ ∅.

(** [config.read(path)]: a file that cannot be opened (missing,
    unreadable, a directory) is skipped and the configuration stays
    empty; a file that opens is parsed, and the parser raises on a text it
    refuses. *)
Definition config_read (st : state) (path : string) : fallible config :=
  match ini_files st !! path with
  | Some (RegularFile f) =>
      if owner_may_read (mode f) then content f else Returns empty_config
  | _ => Returns empty_config
  end.

(** [with open(path, 'w+') as configfile: config.write(configfile)]: the
    file is opened for reading and writing, created if missing (with the
    bits of 0o666 the umask lets through) and truncated; it then holds
    what [config.write] prints, so a later read finds what the parser
    makes of that. *)
Definition write_config (w : World) (path : string) (config : config)
  : M unit :=
  let* st := get_state in
  match ini_files st !! path with
  | Some (RegularFile f) =>
      if owner_may_read (mode f) && owner_may_write (mode f) then
        set_ini_files
          (<[path := RegularFile (mkFile (config_reread w config) (mode f))]>
             (ini_files st))
      else raise (PermissionError path)
  | Some Directory => raise (IsADirectoryError path)
  | Some (Barred e) => raise e
  | None =>
      set_ini_files
        (<[path := RegularFile
                     (mkFile (config_reread w config)
                        (Z.land 438 (* 0o666 *) (Z.lnot (umask w))))]>
           (ini_files st))
  end.

(** [has_section]: the DEFAULT section is not acknowledged. *)
Definition has_section (c : config) (section : string) : bool :=
  bool_decide (is_Some (sections c !! section)).

Definition add_section (c : config) (section : string) : fallible config :=
  if String.eqb section "DEFAULT" then
    Raises (ValueError "Invalid section name: DEFAULT")
  else if has_section c section then Raises (DuplicateSectionError section)
  else Returns (mkConfig (defaults c) (<[section := ∅]> (sections c))).

(** [set]: an empty section name, like DEFAULT, addresses the defaults;
    [optionxform] lower-cases the option. *)
Definition config_set (c : config) (section option value : string)
  : fallible config :=
  if String.eqb section "" || String.eqb section "DEFAULT" then
    Returns (mkConfig (<[PyStr.lower option := value]> (defaults c)) (sections c))
  else
    match sections c !! section with
    | Some sectdict =>
        Returns (mkConfig (defaults c)
              (<[section := <[PyStr.lower option := value]> sectdict]>
                 (sections c)))
    | None => Raises (NoSectionError section)
    end.

Definition write_aws_creds (w : World) (aws_config_file profile access_key
    secret_key token region output : string) : M unit :=
  let* st := get_state in
  let* config := lift (config_read st aws_config_file) in
  let* config :=
    (if negb (has_section config profile)
     then lift (add_section config profile)
     else ret config) in
  let* config := lift (config_set config profile "output" output) in
  let* config := lift (config_set config profile "region" region) in
  let* config := lift (config_set config profile "aws_access_key_id" access_key) in
  let* config :=
    lift (config_set config profile "aws_secret_access_key" secret_key) in
  let* config := lift (config_set config profile "aws_session_token" token) in
  write_config w aws_config_file config.

(** ** get_user_creds *)

Record UserCreds := mkUserCreds { uc_username : string; uc_password : string }.

Definition get_user_creds (w : World) : M UserCreds :=
  let* username :=
    match args_username (args w) with
    | Some u => ret u
    | None =>
        match environ w !! "OKTA_USERNAME" with
        | Some u => ret u
        | None => exec print "Username: " then lift (raw_input w)
        end
    end in
  let passwd_prompt := "Password for " +:+ username +:+ ": " in
  let password := getpass w passwd_prompt in
  if PyStr.len password =? 0 then
    exec print "Password must be provided" then sys_exit 1
  else ret (mkUserCreds username password).

(** ** get_sid_from_file *)

(** [os.path.isfile] *)
Definition isfile (st : state) (path : string) : bool :=
  match files st !! path with
  | Some (RegularFile _) => true
  | _ => false
  end.

(** A file read as text has its line ends translated: a carriage return,
    with the line feed that follows it if one does, becomes a line feed. *)
Fixpoint universal_newlines (s : string) : string :=
  match s with
  | EmptyString => EmptyString
  | String c t =>
      if Ascii.eqb c "013" then
        match t with
        | String c' t' =>
            if Ascii.eqb c' "010" then String "010" (universal_newlines t')
            else String "010" (universal_newlines t)
        | EmptyString => String "010" EmptyString
        end
      else String c (universal_newlines t)
  end.

Definition carriage_return : string := String "013" EmptyString.
Definition line_feed : string := String "010" EmptyString.

(** [open(path).read()]: the file is opened for reading, which its owner
    must be allowed to do, and its bytes are decoded. *)
Definition open_read (w : World) (path : string) : M string :=
  let* st := get_state in
  match files st !! path with
  | Some (RegularFile f) =>
      if owner_may_read (mode f) then
        let* t := lift (decode w (content f)) in
        ret (universal_newlines t)
      else raise (PermissionError path)
  | Some Directory => raise (IsADirectoryError path)
  | Some (Barred e) => raise e
  | None => raise (FileNotFoundError path)
  end.

Definition get_sid_from_file (w : World) (sid_cache_file : string)
  : M (option string) :=
  let* st := get_state in
  if isfile st sid_cache_file then
    let* sid := open_read w sid_cache_file in
    if PyStr.len sid =? 25 then ret (Some sid) else ret None
  else ret None.

(** ** Floating point: [timedelta / timedelta] and [math.ceil]

    Dividing two timedeltas divides their microsecond counts as Python
    integers, and [int / int] is the double nearest to the exact quotient,
    ties to even.  A finite double is kept as [mant * 2 ^ expo].  The
    quotients met here are zero or lie between 1/60000000 and 10^16, far
    from the subnormal and the overflow range, which are left out. *)

Module PyFloat.

Record float := mkFloat { mant : Z; expo : Z }.

(** The integer nearest to [a / b], ties to even ([b > 0]). *)
Definition round_half_even (a b : Z) : Z :=
  let q := a / b in
  let r := a mod b in
  if 2 * r <? b then q
  else if b <? 2 * r then q + 1
  else if Z.even q then q else q + 1.

(** [a / (b * 2 ^ e)], rounded to an integer. *)
Definition scaled_round (a b e : Z) : Z :=
  if 0 <=? e then round_half_even a (b * 2 ^ e)
  else round_half_even (a * 2 ^ (- e)) b.

(** [a / (b * 2 ^ e) < t] *)
Definition scaled_ltb (a b e t : Z) : bool :=
  if 0 <=? e then a <? t * (b * 2 ^ e) else a * 2 ^ (- e) <? t * b.

(** [a / b] for Python integers, [b > 0]: the exponent is chosen so that
    the quotient, scaled, has 53 significant bits before rounding. *)
Definition true_div (a b : Z) : float :=
  if a =? 0 then mkFloat 0 0
  else
    let m := Z.abs a in
    let e1 := Z.log2 m - Z.log2 b - 52 in
    let e := if scaled_ltb m b e1 (2 ^ 52) then e1 - 1 else e1 in
    mkFloat (Z.sgn a * scaled_round m b e) e.

(** [math.ceil] *)
Definition ceil (x : float) : Z :=
  if 0 <=? expo x then mant x * 2 ^ expo x
  else - ((- mant x) / 2 ^ (- expo x)).

End PyFloat.

(** [timedelta(minutes=1)], in microseconds. *)
Definition one_minute : Z := 60000000.

(** [math.ceil(valid_duration / timedelta(minutes=1))] *)
Definition valid_minutes (expiration now : Z) : Z :=
  let valid_duration := expiration - now in
  PyFloat.ceil (PyFloat.true_div valid_duration one_minute).

(** ** main *)

Definition idp_entry_url : string :=
  "https://nimbusscale.okta.com/home/amazon_aws/0oa1zacnfpCCu09Uc0x7/272".

(** [str(n)] for an integer, as [format] prints it. *)
Definition str_of_Z (n : Z) : string := pretty.pretty n.

(** Lines 286 to 314: from the assertion to the written profile. *)
Definition use_assertion (w : World) (aws_config_file region output_format
    assertion : string) : M unit :=
  let* saml_dict := get_arns_from_assertion w assertion in
  let* aws_creds := get_sts_token w (RoleArn saml_dict)
                      (PrincipalArn saml_dict) (SAMLAssertion saml_dict) in
  let* profile_name :=
    match args_profile (args w) with
    | Some p => ret p
    | None => lift (py_index (PyStr.split "/" (RoleArn saml_dict)) 1)
    end in
  exec write_aws_creds w aws_config_file profile_name
         (AccessKeyId aws_creds) (SecretAccessKey aws_creds)
         (SessionToken aws_creds) region output_format then
  if args_verbose (args w) then
    let now := datetime_now w in
    let cred_details :=
      "Credentials for the profile " +:+ profile_name +:+
      " have been set. They will expire in " +:+
      str_of_Z (valid_minutes (Expiration aws_creds) now) +:+ " minutes." in
    print cred_details
  else ret tt.

(** Lines 249 to 281: the login, which ends with the assertion or [None]. *)
Definition login (w : World) (cache_sid : bool) (sid_cache_file : string)
  : M (option string) :=
  let sid := args_sid (args w) in
  let* sid :=
    match sid with
    | None =>
        if cache_sid then get_sid_from_file w sid_cache_file else ret sid
    | Some _ => ret sid
    end in
  match sid with
  | Some sid =>
      let* cookie_response := okta_cookie_login w sid idp_entry_url in
      let assertion := get_saml_assertion w cookie_response in
      match assertion with
      | None =>
          let* user_creds := get_user_creds w in
          let* password_response :=
            okta_password_login w (uc_username user_creds)
              (uc_password user_creds) idp_entry_url in
          let response := lr_response password_response in
          let assertion := get_saml_assertion w response in
          exec (if cache_sid
                then write_sid_file w sid_cache_file (lr_sid password_response)
                else ret tt) then
          ret assertion
      | Some _ => ret assertion
      end
  | None =>
      let* user_creds := get_user_creds w in
      let* password_response :=
        okta_password_login w (uc_username user_creds)
          (uc_password user_creds) idp_entry_url in
      let response := lr_response password_response in
      let assertion := get_saml_assertion w response in
      exec (if cache_sid
            then write_sid_file w sid_cache_file (lr_sid password_response)
            else ret tt) then
      ret assertion
  end.

Definition main (w : World) : M unit :=
  let region := "us-west-2" in
  let output_format := "json" in
  let file_root := home w in
  let aws_config_file := file_root +:+ "/.aws/credentials" in
  let cache_sid := true in
  let sid_cache_file := file_root +:+ "/.okta_sid" in
  let* assertion := login w cache_sid sid_cache_file in
  match assertion with
  | None =>
      exec print "No valid SAML assertion retrieved!" then sys_exit 1
  | Some assertion =>
      use_assertion w aws_config_file region output_format assertion
  end.

(** A form tag whose [action] is set and not empty. *)
Definition has_action (formtag : Tag) : bool :=
  match Tag_get formtag "action" with
  | Some action => negb (String.eqb action "")
  | None => false
  end.







(** ** The orchestration, in the terms of the specification *)

Definition sid_cache_file_of (w : World) : string := home w +:+ "/.okta_sid".

(** How the search for a session identifier ends when [main] starts:
    with the argument, or else with what reading the cache gives, which
    may be an exception. *)
Definition sid_at_hand (w : World) (st : state) : result (option string) :=
  match args_sid (args w) with
  | Some s => Ok (Some s)
  | None => fst (get_sid_from_file w (sid_cache_file_of w) st)
  end.

(** The session identifier at hand when [main] starts: the argument, or
    else what the cache holds. *)
Definition available_sid (w : World) (st : state) : option string :=
  match sid_at_hand w st with
  | Ok o => o
  | _ => None
  end.

(** The interactive password-login path: ask for the credentials, log
    in, cache the new session, look for the assertion in the response. *)
Definition password_path (w : World) : M (option string) :=
  let* user_creds := get_user_creds w in
  let* password_response :=
    okta_password_login w (uc_username user_creds) (uc_password user_creds)
      idp_entry_url in
  exec write_sid_file w (sid_cache_file_of w) (lr_sid password_response) then
  ret (get_saml_assertion w (lr_response password_response)).

(** What [main] does once the login has ended. *)
Definition after_login (w : World) (assertion : option string) : M unit :=
  match assertion with
  | None => exec print "No valid SAML assertion retrieved!" then sys_exit 1
  | Some assertion =>
      use_assertion w (home w +:+ "/.aws/credentials") "us-west-2" "json"
        assertion
  end.

(** The cookie login with identifier [s] answers, with a page that has
    no input named SAMLResponse carrying a value. *)
Definition cookie_assertion_missing (w : World) (s : string) : Prop :=
  exists r, session_get w idp_entry_url (<["sid" := s]> ∅) = Returns r
            /\ get_saml_assertion w r = None.

(** The password login is reached: the search for an identifier ended
    with none at hand, or with one and the cookie login brought no
    assertion. *)
Definition password_login_reached (w : World) (st : state) : Prop :=
  match sid_at_hand w st with
  | Ok None => True
  | Ok (Some s) => cookie_assertion_missing w s
  | _ => False
  end.

(** The username [get_user_creds] settles on. *)
Definition chosen_username (w : World) : fallible string :=
  match args_username (args w) with
  | Some u => Returns u
  | None =>
      match environ w !! "OKTA_USERNAME" with
      | Some u => Returns u
      | None => raw_input w
      end
  end.

Definition password_prompt (u : string) : string :=
  "Password for " +:+ u +:+ ": ".

(** The password entered at the prompt is empty. *)
Definition empty_password_entered (w : World) : Prop :=
  exists u, chosen_username w = Returns u
            /\ getpass w (password_prompt u) = "".

(** The response to the submitted login form carries the marker. *)
Definition sign_in_failed_marker (w : World) : Prop :=
  exists u formresponse response,
    chosen_username w = Returns u
    /\ getpass w (password_prompt u) <> ""
    /\ session_get w idp_entry_url ∅ = Returns formresponse
    /\ session_post w
         (form_submit_url w idp_entry_url (url formresponse)
            (BeautifulSoup w (text formresponse)))
         (build_payload u (getpass w (password_prompt u))
            (BeautifulSoup w (text formresponse)))
       = Returns response
    /\ PyStr.str_in "Sign in failed!" (text response) = true.

(** [os.open] lets the script write the file at [path]: nothing is
    there yet, or a regular file its owner may write. *)
Definition may_write_file (st : state) (path : string) : bool :=
  match files st !! path with
  | None => true
  | Some (RegularFile f) => owner_may_write (mode f)
  | Some _ => false
  end.

(** The password login ran to its end (no marker, a session cookie, the
    cache written) and its response carries no assertion. *)
Definition password_login_without_assertion (w : World) (st : state) : Prop :=
  exists u formresponse response newsid,
    chosen_username w = Returns u
    /\ getpass w (password_prompt u) <> ""
    /\ session_get w idp_entry_url ∅ = Returns formresponse
    /\ session_post w
         (form_submit_url w idp_entry_url (url formresponse)
            (BeautifulSoup w (text formresponse)))
         (build_payload u (getpass w (password_prompt u))
            (BeautifulSoup w (text formresponse)))
       = Returns response
    /\ PyStr.str_in "Sign in failed!" (text response) = false
    /\ cookies response !! "sid" = Some newsid
    /\ may_write_file st (sid_cache_file_of w) = true
    /\ get_saml_assertion w response = None.

(** After whichever login path ran, no assertion was obtained: the cookie
    login brought none, if it ran at all, and neither did the password
    login. *)
Definition no_assertion_obtained (w : World) (st : state) : Prop :=
  password_login_reached w st /\ password_login_without_assertion w st.

(** A computation that never calls [sys.exit]. *)
Definition no_exit {A} (m : M A) : Prop :=
  forall st code, fst (m st) <> SysExit code.

(** ** A model of [urlparse]

    The scheme and netloc [urllib.parse.urlparse] returns for a URL that
    has no leading blanks, no control characters and no brackets: the
    scheme is what precedes the first colon, lower-cased, when it starts
    with a letter and holds only letters, digits, [+], [-] and [.]; the
    netloc is what follows [//], up to the first [/], [?] or [#]. *)

Module UrlModel.

Definition is_alpha (c : ascii) : bool :=
  let n := nat_of_ascii c in
  ((65 <=? n)%nat && (n <=? 90)%nat) || ((97 <=? n)%nat && (n <=? 122)%nat).

Definition is_scheme_char (c : ascii) : bool :=
  let n := nat_of_ascii c in
  is_alpha c || ((48 <=? n)%nat && (n <=? 57)%nat)
  || (n =? 43)%nat || (n =? 45)%nat || (n =? 46)%nat.

(** [url.find(':')]: what precedes and what follows the first colon. *)
Fixpoint cut_colon (acc s : string) : option (string * string) :=
  match s with
  | EmptyString => None
  | String c t =>
      if Ascii.eqb c ":" then Some (acc, t)
      else cut_colon (acc +:+ String c EmptyString) t
  end.

Fixpoint all_chars (p : ascii -> bool) (s : string) : bool :=
  match s with
  | EmptyString => true
  | String c t => p c && all_chars p t
  end.

Definition split_scheme (u : string) : string * string :=
  match cut_colon EmptyString u with
  | Some (String c0 t0, rest) =>
      if is_alpha c0 && all_chars is_scheme_char (String c0 t0)
      then (PyStr.lower (String c0 t0), rest)
      else (EmptyString, u)
  | _ => (EmptyString, u)
  end.

Fixpoint take_netloc (s : string) : string :=
  match s with
  | EmptyString => EmptyString
  | String c t =>
      if Ascii.eqb c "/" || Ascii.eqb c "?" || Ascii.eqb c "#"
      then EmptyString
      else String c (take_netloc t)
  end.

Definition urlparse (u : string) : ParseResult :=
  let '(sch, rest) := split_scheme u in
  match rest with
  | String "/" (String "/" t) => mkParseResult sch (take_netloc t)
  | _ => mkParseResult sch EmptyString
  end.

End UrlModel.

(** ** Sample data *)

Module Sample.

Definition form_tag (action : string) : Tag :=
  mkTag "form" (<["action" := action]> ∅).

(** The login form of the specification's example. *)
Definition login_form : list Tag :=
  [ form_tag "/auth/submit";
    input_tag "username" ""; input_tag "password" "";
    input_tag "csrf_token" "abc123" ].

(** A login page that ends with a search form. *)
Definition login_and_search_page : list Tag :=
  [ form_tag "/login";
    input_tag "username" ""; input_tag "password" "";
    form_tag "/search"; input_tag "q" "" ].

(** A form with a field whose name holds both words. *)
Definition both_words_form : list Tag :=
  [ input_tag "user_password" "" ].

(** A form with the same hidden field twice. *)
Definition twice_form : list Tag :=
  [ input_tag "token" "first"; input_tag "token" "second" ].

(** The ASCII codec: bytes below 128 are the characters they stand for,
    any other byte is refused. *)
Fixpoint is_ascii (s : string) : bool :=
  match s with
  | EmptyString => true
  | String c t => (nat_of_ascii c <? 128)%nat && is_ascii t
  end.

Definition ascii_decode (s : string) : fallible string :=
  if is_ascii s then Returns s else Raises UnicodeDecodeError.

(** A stand-in for configparser on the configurations of this module,
    whose names and values are plain words: the text printed for one reads
    back as that configuration, unless a section has the empty name, whose
    header is printed as [[]], which the parser refuses. *)
Definition reread (c : config) : fallible config :=
  if bool_decide (is_Some (sections c !! "")) then Raises ParsingError
  else Returns c.

Definition sid25 : string := "102abcdefghijklmnopqrstuv".
Definition new_sid25 : string := "ABCDEFGHIJKLMNOPQRSTUVWXY".

Definition sid_path : string := "/home/u/.okta_sid".
Definition creds_path : string := "/home/u/.aws/credentials".

(** Nothing at any path: the directories are there, and empty. *)
Definition empty_state : state := mkState ∅ ∅ [].

(** A cache file written by hand, the identifier followed by a newline,
    readable by everyone. *)
Definition newline : string := String (ascii_of_nat 10) EmptyString.

Definition stale_cache_state : state :=
  mkState (<[sid_path := RegularFile (mkFile (sid25 +:+ newline) 420)]> ∅)
          ∅ [].

(** A cache file holding a valid identifier. *)
Definition cached_state : state :=
  mkState (<[sid_path := RegularFile (mkFile sid25 384)]> ∅) ∅ [].

(** SAML assertions *)
Definition attribute_value (t : string) : Element :=
  mkElement urn_attributevalue ∅ (Some t) [].

Definition role_attribute (values : list string) : Element :=
  mkElement urn_attribute (<["Name" := role_url]> ∅) None
            (List.map attribute_value values).

Definition assertion_root (values : list string) : Element :=
  mkElement "{urn:oasis:names:tc:SAML:2.0:protocol}Response" ∅ None
    [ mkElement (urn +:+ "Assertion") ∅ None
        [ mkElement (urn +:+ "AttributeStatement") ∅ None
            [ mkElement urn_attribute
                (<["Name" := "https://aws.amazon.com/SAML/Attributes/RoleSessionName"]> ∅)
                None [attribute_value "alice"];
              role_attribute values ] ] ].

Definition fixture_value : string :=
  "arn:aws:iam::111:saml-provider/X,arn:aws:iam::111:role/Y".

Definition fixture_root : Element := assertion_root [fixture_value].

(** A user entitled to two roles. *)
Definition two_roles_root : Element :=
  assertion_root
    [ "arn:aws:iam::111:saml-provider/X,arn:aws:iam::111:role/Y";
      "arn:aws:iam::222:saml-provider/V,arn:aws:iam::222:role/W" ].

(** A Role attribute whose value has no comma. *)
Definition no_comma_root : Element := assertion_root ["arn:aws:iam::111:role/Y"].

(** Pages *)
Definition login_page_text : string := "<html>login form</html>".
Definition landing_page_text : string := "<html>SAMLResponse</html>".
Definition token : string := "PHNhbWw+".

Definition soup_of (t : string) : list Tag :=
  if String.eqb t landing_page_text
  then [ mkTag "form" ∅; input_tag "SAMLResponse" token ]
  else if String.eqb t login_page_text then login_form
  else [].

Definition creds : Credentials :=
  mkCredentials "AKIA" "secret" "session" 90000000.

(** A world in which the first page fetched has text [first_page], the
    page after the password login is the landing page with a fresh
    session cookie, and an assertion decodes to [root]. *)
Definition world (a : Args) (first_page : string) (root : Element) : World :=
  mkWorld a ∅ (Raises (NameError "raw_input")) (fun _ => "s3cret")
    "/home/u" 18 ascii_decode reread
    (fun u _ => Returns (mkResponse u first_page ∅))
    (fun u _ => Returns (mkResponse u landing_page_text (<["sid" := new_sid25]> ∅)))
    soup_of UrlModel.urlparse (fun _ => Returns root) (fun _ _ _ => Returns creds) 0.

(** The cached session has expired (the cookie login returns the login
    form again) and the password login succeeds. *)
Definition expired_session_world : World :=
  world (mkArgs (Some "alice") None true None) login_page_text fixture_root.

(** The session given on the command line is accepted, and the
    assertion's Role value has no comma. *)
Definition malformed_assertion_world : World :=
  world (mkArgs (Some "alice") None false (Some sid25)) landing_page_text
        no_comma_root.

(** The session is accepted and the assertion lists two roles. *)
Definition two_roles_world : World :=
  world (mkArgs (Some "alice") None false (Some sid25)) landing_page_text
        two_roles_root.

(** A credentials file with one other profile. *)
Definition other_section : gmap string string :=
  <["aws_access_key_id" := "OLD"]> (<["region" := "eu-west-1"]> ∅).

Definition one_profile_config : config :=
  mkConfig ∅ (<["work" := other_section]> ∅).

Definition one_profile_file : node (fallible config) :=
  RegularFile (mkFile (Returns one_profile_config) 384).

Definition one_profile_state : state :=
  mkState ∅ (<[creds_path := one_profile_file]> ∅) [].

End Sample.

(** ** Further notions, for the properties of the script as a whole *)

(** An input tag named SAMLResponse. *)
Definition is_SAMLResponse (t : Tag) : bool :=
  bool_decide (Tag_get t "name" = Some "SAMLResponse").

(** [st'] differs from [st] at most in the session cache of [w], in its
    credentials file, and by lines added to the output. *)
Definition touches_only (w : World) (st st' : state) : Prop :=
  (forall p, p <> home w +:+ "/.okta_sid" -> files st' !! p = files st !! p)
  /\ (forall p, p <> home w +:+ "/.aws/credentials" ->
        ini_files st' !! p = ini_files st !! p)
  /\ exists lines, stdout st' = (stdout st ++ lines)%list.

(** [st'] has the files of [st]; only lines were added to the output. *)
Definition only_prints (st st' : state) : Prop :=
  files st' = files st /\ ini_files st' = ini_files st
  /\ exists lines, stdout st' = (stdout st ++ lines)%list.

Module MoreSample.

(** Like [Sample.world], with the response to the login form given. *)
Definition world_post (a : Args) (env : gmap string string)
    (password : string) (post : Response) (root : Element) : World :=
  mkWorld a env (Raises (NameError "raw_input")) (fun _ => password)
    "/home/u" 18 Sample.ascii_decode Sample.reread
    (fun u _ => Returns (mkResponse u Sample.login_page_text ∅))
    (fun _ _ => Returns post)
    Sample.soup_of UrlModel.urlparse (fun _ => Returns root)
    (fun _ _ _ => Returns Sample.creds) 0.

Definition no_args : Args := mkArgs None None false None.

(** The identity provider rejects the password. *)
Definition rejected_page : Response :=
  mkResponse "https://idp/login" "<p>Sign in failed!</p>"
             (<["sid" := Sample.new_sid25]> ∅).

Definition rejecting_world : World :=
  world_post (mkArgs (Some "alice") None false None) ∅ "wrong"
             rejected_page Sample.fixture_root.

(** The landing page comes without a session cookie. *)
Definition cookieless_page : Response :=
  mkResponse "https://idp/app" Sample.landing_page_text ∅.

Definition cookieless_world : World :=
  world_post (mkArgs (Some "alice") None false None) ∅ "s3cret"
             cookieless_page Sample.fixture_root.

(** The username comes from the environment, the password is empty. *)
Definition empty_password_world : World :=
  world_post no_args (<["OKTA_USERNAME" := "bob"]> ∅) ""
             cookieless_page Sample.fixture_root.

(** The username comes from the environment. *)
Definition env_user_world : World :=
  world_post no_args (<["OKTA_USERNAME" := "bob"]> ∅) "s3cret"
             cookieless_page Sample.fixture_root.

(** A page with two inputs named SAMLResponse, the first without value. *)
Definition two_saml_inputs : list Tag :=
  [ mkTag "input" (<["name" := "SAMLResponse"]> ∅);
    input_tag "SAMLResponse" Sample.token ].

(** An assertion without a Role attribute. *)
Definition no_role_root : Element :=
  mkElement "{urn:oasis:names:tc:SAML:2.0:protocol}Response" ∅ None
    [ mkElement urn_attribute (<["Name" := "other"]> ∅) None
        [Sample.attribute_value "x,y"] ].

(** A Role attribute whose value element is empty. *)
Definition empty_value_root : Element :=
  mkElement "{urn:oasis:names:tc:SAML:2.0:protocol}Response" ∅ None
    [ mkElement urn_attribute (<["Name" := role_url]> ∅) None
        [ mkElement urn_attributevalue ∅ None [] ] ].

(** A Role value with three components. *)
Definition three_parts_root : Element :=
  Sample.assertion_root ["arn:p,arn:role/R,extra"].

Definition decoding_world (root : Element) : World :=
  world_post (mkArgs (Some "alice") None false None) ∅ "s3cret"
             cookieless_page root.




(** A cache file holding an identifier, with no permission bit set. *)
Definition locked_cache_state : state :=
  mkState (<[Sample.sid_path := RegularFile (mkFile Sample.sid25 0)]> ∅) ∅ [].

(** A cache file of 25 bytes of value 255, which no text in ASCII or
    UTF-8 contains. *)
Definition high_bytes25 : string :=
  Eval cbv in fold_right String EmptyString (replicate 25 "255"%char).

Definition undecodable_cache_state : state :=
  mkState (<[Sample.sid_path := RegularFile (mkFile high_bytes25 384)]> ∅)
          ∅ [].

(** A cache file of 24 characters and a line end as DOS writes it. *)
Definition crlf_content : string :=
  "102abcdefghijklmnopqrstu" +:+ carriage_return +:+ line_feed.

Definition crlf_cache_state : state :=
  mkState (<[Sample.sid_path := RegularFile (mkFile crlf_content 384)]> ∅)
          ∅ [].

End MoreSample.

(** Every run of [m] takes a state to one related to it by [R]. *)
Definition respects {A} (R : state -> state -> Prop) (m : M A) : Prop :=
  forall st, R st (snd (m st)).

(** The text files are the same. *)
Definition same_files (st st' : state) : Prop := files st' = files st.

(** * Properties *)

(** ** The login form payload *)

Section Payload.

Variables (u p : string).

Lemma payload_step_insert (m : gmap string string) t :
  payload_step u p m t = <[field_name t := field_value u p t]> m.
Proof.
  unfold payload_step, field_value, field_name.
  destruct (PyStr.str_in "user" _); [done|].
  destruct (PyStr.str_in "pass" _); done.
Qed.

(** The value under a name is decided by the last field of that name. *)
Lemma fold_payload_lookup (inputs : list Tag) (m : gmap string string) n :
  fold_left (payload_step u p) inputs m !! n =
  match last (fields_named n inputs) with
  | Some t => Some (field_value u p t)
  | None => m !! n
  end.
Proof.
  revert m. induction inputs as [|t inputs IH] using rev_ind; intros m.
  - reflexivity.
  - rewrite fold_left_app. simpl. rewrite payload_step_insert.
    unfold fields_named. rewrite List.filter_app. simpl.
    destruct (String.eqb_spec (field_name t) n) as [->|Hne].
    + rewrite last_snoc. apply lookup_insert_eq.
    + rewrite app_nil_r. rewrite lookup_insert_ne by done. apply IH.
Qed.

Lemma build_payload_lookup soup n :
  build_payload u p soup !! n =
  field_value u p <$>
    last (fields_named n (find_all_re ["INPUT"; "input"] soup)).
Proof.
  unfold build_payload. rewrite fold_payload_lookup.
  destruct (last _); reflexivity.
Qed.

Lemma fields_named_last n (inputs : list Tag) t :
  In t inputs -> field_name t = n ->
  exists t', last (fields_named n inputs) = Some t' /\ field_name t' = n
             /\ In t' inputs.
Proof.
  intros Hin Hn.
  assert (Hf : In t (fields_named n inputs)).
  { apply List.filter_In. split; [done|]. by apply String.eqb_eq. }
  destruct (last (fields_named n inputs)) as [t'|] eqn:Hl.
  - exists t'. split; [done|].
    apply last_Some in Hl as [l' Hl].
    assert (Ht' : In t' (fields_named n inputs)).
    { rewrite Hl. apply in_or_app. right. by left. }
    apply List.filter_In in Ht' as [? ?%String.eqb_eq]. done.
  - apply last_None in Hl. rewrite Hl in Hf. destruct Hf.
Qed.

(** The payload holds exactly the names of the input fields. *)
Lemma build_payload_dom soup n :
  is_Some (build_payload u p soup !! n) <->
  exists t, In t (find_all_re ["INPUT"; "input"] soup) /\ field_name t = n.
Proof.
  rewrite build_payload_lookup. split.
  - intros [v Hv]. apply fmap_Some in Hv as (t & Hl & _).
    apply last_Some in Hl as [l' Hl]. exists t.
    assert (Ht : In t (fields_named n (find_all_re ["INPUT"; "input"] soup))).
    { rewrite Hl. apply in_or_app. right. by left. }
    apply List.filter_In in Ht as [? ?%String.eqb_eq]. done.
  - intros (t & Hin & Hn).
    destruct (fields_named_last n _ t Hin Hn) as (t' & -> & _). by eexists.
Qed.

End Payload.

(** C1, as the code has it: a field of the login page whose name contains
    "user" (case-insensitively) is sent with the username; one whose name
    contains "pass" and not "user" is sent with the password; any other
    name is sent with the value of the last field of that name, the
    field's own value when no other field shares its name. *)
Theorem payload_field_classification (u p : string) (soup : list Tag) (t : Tag) :
  In t (find_all_re ["INPUT"; "input"] soup) ->
  let inputs := find_all_re ["INPUT"; "input"] soup in
  let n := Tag_get_default t "name" "" in
  let payload := build_payload u p soup in
  (PyStr.str_in "user" (PyStr.lower n) = true -> payload !! n = Some u)
  /\ (PyStr.str_in "user" (PyStr.lower n) = false ->
      PyStr.str_in "pass" (PyStr.lower n) = true -> payload !! n = Some p)
  /\ (PyStr.str_in "user" (PyStr.lower n) = false ->
      PyStr.str_in "pass" (PyStr.lower n) = false ->
      (exists t', last (fields_named n inputs) = Some t'
                  /\ payload !! n = Some (Tag_get_default t' "value" ""))
      /\ (fields_named n inputs = [t] ->
          payload !! n = Some (Tag_get_default t "value" ""))).
Proof.
  intros Hin inputs n payload.
  destruct (fields_named_last n inputs t Hin eq_refl) as (t' & Hl & Hn & _).
  assert (Hp : payload !! n = Some (field_value u p t')).
  { unfold payload. rewrite build_payload_lookup. fold inputs. by rewrite Hl. }
  unfold field_value in Hp. unfold field_name in Hn. rewrite Hn in Hp.
  split; [|split].
  - intros Hu. by rewrite Hu in Hp.
  - intros Hu Hpw. by rewrite Hu, Hpw in Hp.
  - intros Hu Hpw. rewrite Hu, Hpw in Hp. split; [eauto|].
    intros Hone. rewrite Hone in Hl. simpl in Hl. by simplify_eq.
Qed.

Lemma payload_field_classification_witness :
  let payload := build_payload "alice" "s3cret" Sample.login_form in
  payload !! "username" = Some "alice"
  /\ payload !! "password" = Some "s3cret"
  /\ payload !! "csrf_token" = Some "abc123".
Proof.
  pose proof (payload_field_classification "alice" "s3cret" Sample.login_form
                (input_tag "username" "")) as Hu.
  pose proof (payload_field_classification "alice" "s3cret" Sample.login_form
                (input_tag "password" "")) as Hp.
  pose proof (payload_field_classification "alice" "s3cret" Sample.login_form
                (input_tag "csrf_token" "abc123")) as Hc.
  split; [|split].
  - apply Hu; [vm_compute; tauto | reflexivity].
  - apply Hp; [vm_compute; tauto | reflexivity | reflexivity].
  - apply Hc; [vm_compute; tauto | reflexivity | reflexivity | reflexivity].
Defined.

(** C1 as written fails: the name "user_password" contains "pass", and the
    field is sent with the username, not the password. *)
Lemma payload_pass_field_gets_username :
  let t := input_tag "user_password" "" in
  let payload := build_payload "alice" "s3cret" Sample.both_words_form in
  In t (find_all_re ["INPUT"; "input"] Sample.both_words_form)
  /\ PyStr.str_in "pass" (PyStr.lower (Tag_get_default t "name" "")) = true
  /\ payload !! Tag_get_default t "name" "" <> Some "s3cret".
Proof.
  split; [left; reflexivity|]. split; [reflexivity|].
  vm_compute. discriminate.
Qed.

(** Two fields of one name: the payload keeps the later value only. *)
Lemma payload_same_name_keeps_last :
  build_payload "alice" "s3cret" Sample.twice_form !! "token" = Some "second".
Proof. reflexivity. Qed.

(** The payload holds nothing but the three fields of the example form. *)
Lemma payload_example_exact :
  build_payload "alice" "s3cret" Sample.login_form =
  <["username" := "alice"]> (<["password" := "s3cret"]>
    (<["csrf_token" := "abc123"]> ∅)).
Proof. vm_compute. reflexivity. Qed.

(** C10: a field whose name contains both "user" and "pass" is sent with
    the username, and so not with the password when the two differ. *)
Theorem payload_user_takes_precedence (u p : string) (soup : list Tag) (t : Tag) :
  In t (find_all_re ["INPUT"; "input"] soup) ->
  PyStr.str_in "user" (PyStr.lower (Tag_get_default t "name" "")) = true ->
  PyStr.str_in "pass" (PyStr.lower (Tag_get_default t "name" "")) = true ->
  build_payload u p soup !! Tag_get_default t "name" "" = Some u
  /\ (u <> p ->
      build_payload u p soup !! Tag_get_default t "name" "" <> Some p).
Proof.
  intros Hin Hu _.
  destruct (fields_named_last _ _ t Hin eq_refl) as (t' & Hl & Hn & _).
  assert (Hp : build_payload u p soup !! Tag_get_default t "name" "" = Some u).
  { rewrite build_payload_lookup. unfold field_name in *. rewrite Hl. simpl.
    unfold field_value. by rewrite Hn, Hu. }
  split; [done|]. intros Hne. rewrite Hp. congruence.
Qed.

Lemma payload_user_takes_precedence_witness :
  build_payload "alice" "s3cret" Sample.both_words_form !! "user_password"
    = Some "alice"
  /\ build_payload "alice" "s3cret" Sample.both_words_form !! "user_password"
    <> Some "s3cret".
Proof.
  destruct (payload_user_takes_precedence "alice" "s3cret"
              Sample.both_words_form (input_tag "user_password" ""))
    as [H1 H2]; [left; reflexivity | reflexivity | reflexivity |].
  split; [exact H1 | apply H2; discriminate].
Defined.

(** ** The session cache *)

(** The result of [get_sid_from_file], case by case. *)
Lemma get_sid_from_file_unfold (w : World) (path : string) (st : state) :
  get_sid_from_file w path st =
  (match files st !! path with
   | Some (RegularFile f) =>
       if owner_may_read (mode f) then
         match decode w (content f) with
         | Returns t =>
             if PyStr.len (universal_newlines t) =? 25
             then Ok (Some (universal_newlines t)) else Ok None
         | Raises e => Raise e
         end
       else Raise (PermissionError path)
   | _ => Ok None
   end, st).
Proof.
  unfold get_sid_from_file, isfile, open_read, bind, get_state, ret, lift,
    raise. cbn.
  destruct (files st !! path) as [[f| |e]|] eqn:Hf; cbn; rewrite ?Hf;
    try done.
  destruct (owner_may_read (mode f)); [|done].
  destruct (decode w (content f)) as [t|e]; [|done].
  by destruct (PyStr.len (universal_newlines t) =? 25).
Qed.

(** A text without carriage returns keeps its line ends. *)
Lemma universal_newlines_no_cr (s : string) :
  PyStr.str_in carriage_return s = false -> universal_newlines s = s.
Proof.
  induction s as [|c s IH]; [done|]. intros H.
  cbn [PyStr.str_in] in H. apply orb_false_iff in H as [Hp Hs].
  cbn [universal_newlines].
  destruct (Ascii.eqb_spec c "013") as [->|Hc].
  - unfold carriage_return in Hp. simpl in Hp. by destruct s.
  - by rewrite IH.
Qed.

(** C3, as the code has it: [get_sid_from_file] returns an identifier
    exactly when the path holds a regular file that its owner may read,
    whose bytes the codec of the locale accepts, and whose text (the
    decoded bytes with the line ends translated) is 25 characters long,
    and then that text.  It returns [None] when the path holds no regular
    file and when the text has another length.  It raises PermissionError
    on a regular file its owner may not read, and what the codec raises on
    bytes it refuses.  It never exits and leaves the state as it was. *)
Theorem get_sid_from_file_spec (w : World) (path : string) (st : state) :
  snd (get_sid_from_file w path st) = st
  /\ (forall code, fst (get_sid_from_file w path st) <> SysExit code)
  /\ (forall s, fst (get_sid_from_file w path st) = Ok (Some s) <->
        exists f t, files st !! path = Some (RegularFile f)
                    /\ owner_may_read (mode f) = true
                    /\ decode w (content f) = Returns t
                    /\ s = universal_newlines t
                    /\ String.length s = 25%nat)
  /\ (fst (get_sid_from_file w path st) = Ok None <->
        (forall f, files st !! path <> Some (RegularFile f))
        \/ exists f t, files st !! path = Some (RegularFile f)
                       /\ owner_may_read (mode f) = true
                       /\ decode w (content f) = Returns t
                       /\ String.length (universal_newlines t) <> 25%nat)
  /\ (forall e, fst (get_sid_from_file w path st) = Raise e <->
        exists f, files st !! path = Some (RegularFile f)
                  /\ (owner_may_read (mode f) = false
                      /\ e = PermissionError path
                      \/ owner_may_read (mode f) = true
                         /\ decode w (content f) = Raises e)).
Proof.
  rewrite get_sid_from_file_unfold. simpl. split; [done|].
  destruct (files st !! path) as [[f| |e0]|] eqn:Hf.
  - destruct (owner_may_read (mode f)) eqn:Hr.
    + destruct (decode w (content f)) as [t|e0] eqn:Hd.
      * unfold PyStr.len.
        destruct (Z.eqb_spec (Z.of_nat (String.length (universal_newlines t)))
                    25) as [He|He].
        -- split; [done|]. split; [|split].
           ++ intros s. split.
              ** intros [= <-]. exists f, t. repeat split; try done. lia.
              ** intros (f' & t' & [= <-] & _ & Hd' & -> & _).
                 rewrite Hd in Hd'. by injection Hd' as <-.
           ++ split; [done|]. intros [Hn|(f' & t' & [= <-] & _ & Hd' & Hl)].
              ** by destruct (Hn f).
              ** rewrite Hd in Hd'. injection Hd' as <-. lia.
           ++ intros e. split; [done|].
              intros (f' & [= <-] & [[? _]|[_ Hd']]); congruence.
        -- split; [done|]. split; [|split].
           ++ intros s. split; [done|].
              intros (f' & t' & [= <-] & _ & Hd' & -> & Hl).
              rewrite Hd in Hd'. injection Hd' as <-. lia.
           ++ split; [|done]. intros _. right. exists f, t.
              repeat split; try done. lia.
           ++ intros e. split; [done|].
              intros (f' & [= <-] & [[? _]|[_ Hd']]); congruence.
      * split; [done|]. split; [|split].
        -- intros s. split; [done|].
           intros (f' & t' & [= <-] & _ & Hd' & _). congruence.
        -- split; [done|]. intros [Hn|(f' & t' & [= <-] & _ & Hd' & _)].
           ++ by destruct (Hn f).
           ++ congruence.
        -- intros e. split.
           ++ intros [= <-]. exists f. split; [done|]. by right.
           ++ intros (f' & [= <-] & [[? _]|[_ Hd']]); congruence.
    + split; [done|]. split; [|split].
      * intros s. split; [done|].
        intros (f' & t' & [= <-] & ? & _). congruence.
      * split; [done|]. intros [Hn|(f' & t' & [= <-] & ? & _)].
        -- by destruct (Hn f).
        -- congruence.
      * intros e. split.
        -- intros [= <-]. exists f. split; [done|]. by left.
        -- intros (f' & [= <-] & [[_ ->]|[? _]]); congruence.
  - split; [done|]. split; [|split].
    + intros s. split; [done|]. intros (f' & t' & [=] & _).
    + split; [|done]. intros _. left. intros f'. done.
    + intros e. split; [done|]. intros (f' & [=] & _).
  - split; [done|]. split; [|split].
    + intros s. split; [done|]. intros (f' & t' & [=] & _).
    + split; [|done]. intros _. left. intros f'. done.
    + intros e. split; [done|]. intros (f' & [=] & _).
  - split; [done|]. split; [|split].
    + intros s. split; [done|]. intros (f' & t' & [=] & _).
    + split; [|done]. intros _. left. intros f'. done.
    + intros e. split; [done|]. intros (f' & [=] & _).
Qed.

(** A readable file whose bytes decode to themselves and hold no carriage
    return: the identifier is the content, when it is 25 characters
    long. *)
Lemma get_sid_from_file_plain (w : World) (path : string) (st : state)
    (f : file string) :
  files st !! path = Some (RegularFile f) ->
  owner_may_read (mode f) = true ->
  decode w (content f) = Returns (content f) ->
  PyStr.str_in carriage_return (content f) = false ->
  fst (get_sid_from_file w path st)
  = if PyStr.len (content f) =? 25 then Ok (Some (content f)) else Ok None.
Proof.
  intros Hf Hr Hd Hc. rewrite get_sid_from_file_unfold, Hf, Hr, Hd. simpl.
  by rewrite universal_newlines_no_cr.
Qed.

(** Contents of length 24, 25 and 26. *)
Lemma get_sid_from_file_lengths :
  let w := Sample.expired_session_world in
  let st c := mkState (<["f" := RegularFile (mkFile c 384)]> ∅) ∅ [] in
  fst (get_sid_from_file w "f" (st "102abcdefghijklmnopqrstu")) = Ok None
  /\ fst (get_sid_from_file w "f" (st "102abcdefghijklmnopqrstuv"))
     = Ok (Some "102abcdefghijklmnopqrstuv")
  /\ fst (get_sid_from_file w "f" (st "102abcdefghijklmnopqrstuvw")) = Ok None.
Proof. vm_compute. done. Qed.

(** C3 as written fails on a cache file that cannot be read as text.  A
    file of 25 characters whose owner may not read it: PermissionError.  A
    file of 25 bytes the codec refuses: UnicodeDecodeError.  And a file of
    26 bytes, 24 characters and a line end of carriage return and line
    feed, reads as 25 characters, which are returned as an identifier. *)
Lemma get_sid_from_file_raises :
  let w := Sample.expired_session_world in
  (files MoreSample.locked_cache_state !! Sample.sid_path
   = Some (RegularFile (mkFile Sample.sid25 0))
   /\ String.length Sample.sid25 = 25%nat
   /\ fst (get_sid_from_file w Sample.sid_path MoreSample.locked_cache_state)
      = Raise (PermissionError Sample.sid_path))
  /\ (files MoreSample.undecodable_cache_state !! Sample.sid_path
      = Some (RegularFile (mkFile MoreSample.high_bytes25 384))
      /\ String.length MoreSample.high_bytes25 = 25%nat
      /\ fst (get_sid_from_file w Sample.sid_path
                MoreSample.undecodable_cache_state)
         = Raise UnicodeDecodeError)
  /\ (files MoreSample.crlf_cache_state !! Sample.sid_path
      = Some (RegularFile (mkFile MoreSample.crlf_content 384))
      /\ String.length MoreSample.crlf_content = 26%nat
      /\ fst (get_sid_from_file w Sample.sid_path MoreSample.crlf_cache_state)
         = Ok (Some ("102abcdefghijklmnopqrstu" +:+ line_feed))).
Proof. vm_compute. done. Qed.

Lemma str_drop_empty n : str_drop n "" = "".
Proof. by destruct n. Qed.

Lemma append_empty_r (s : string) : s +:+ "" = s.
Proof.
  induction s as [|c s IH]; [done|].
  change (String c (s +:+ "") = String c s). by rewrite IH.
Qed.

Lemma length_append (s t : string) :
  String.length (s +:+ t) = (String.length s + String.length t)%nat.
Proof.
  induction s as [|c s IH]; [done|].
  change (S (String.length (s +:+ t))
          = S (String.length s + String.length t)). by rewrite IH.
Qed.

Lemma length_str_drop n (s : string) :
  String.length (str_drop n s) = (String.length s - n)%nat.
Proof.
  revert s. induction n as [|n IH]; intros [|c s]; simpl; try done.
Qed.

Lemma str_drop_all n (s : string) :
  (String.length s <= n)%nat -> str_drop n s = "".
Proof.
  revert s. induction n as [|n IH]; intros [|c s]; simpl; try done; try lia.
  intros. apply IH. lia.
Qed.

Lemma write_at_start_length (data old : string) :
  String.length (write_at_start data old)
  = Nat.max (String.length data) (String.length old).
Proof. unfold write_at_start. rewrite length_append, length_str_drop. lia. Qed.

(** Written over a content that is not longer, the data is all there is. *)
Lemma write_at_start_covers (data old : string) :
  (String.length old <= String.length data)%nat ->
  write_at_start data old = data.
Proof.
  intros H. unfold write_at_start. rewrite str_drop_all by done.
  apply append_empty_r.
Qed.

(** Written over a longer content, the data is not all there is. *)
Lemma write_at_start_longer (data old : string) :
  (String.length data < String.length old)%nat ->
  write_at_start data old <> data.
Proof.
  intros H Heq. apply (f_equal String.length) in Heq.
  rewrite write_at_start_length in Heq. lia.
Qed.

(** No file at the path: one is created, holds the identifier, and has
    the owner's read and write bits the umask lets through, no others. *)
Lemma write_sid_file_absent (w : World) (path sid : string) (st : state) :
  files st !! path = None ->
  write_sid_file w path sid st =
  (Ok tt,
   mkState (<[path := RegularFile
                (mkFile sid (Z.land 384 (Z.lnot (umask w))))]> (files st))
           (ini_files st) (stdout st)).
Proof.
  intros Hf. unfold write_sid_file, os_open_wronly_creat, bind, get_state,
    set_files, ret. simpl. rewrite Hf. simpl.
  unfold write_at_start. rewrite str_drop_empty, append_empty_r.
  by rewrite insert_insert_eq.
Qed.

(** A file at the path that its owner may write: it is not truncated and
    keeps its mode. *)
Lemma write_sid_file_existing (w : World) (path sid : string) (st : state) f :
  files st !! path = Some (RegularFile f) ->
  owner_may_write (mode f) = true ->
  write_sid_file w path sid st =
  (Ok tt,
   mkState (<[path := RegularFile
                (mkFile (write_at_start sid (content f)) (mode f))]> (files st))
           (ini_files st) (stdout st)).
Proof.
  intros Hf Hw. unfold write_sid_file, os_open_wronly_creat, bind, get_state,
    set_files, ret. simpl. by rewrite Hf, Hw.
Qed.

(** A file at the path that its owner may not write. *)
Lemma write_sid_file_unwritable (w : World) (path sid : string) (st : state)
    f :
  files st !! path = Some (RegularFile f) ->
  owner_may_write (mode f) = false ->
  write_sid_file w path sid st = (Raise (PermissionError path), st).
Proof.
  intros Hf Hw. unfold write_sid_file, os_open_wronly_creat, bind, get_state,
    raise. simpl. by rewrite Hf, Hw.
Qed.

Lemma write_sid_file_directory (w : World) (path sid : string) (st : state) :
  files st !! path = Some Directory ->
  write_sid_file w path sid st = (Raise (IsADirectoryError path), st).
Proof.
  intros Hf. unfold write_sid_file, os_open_wronly_creat, bind, get_state,
    raise, lift. simpl. by rewrite Hf.
Qed.

Lemma write_sid_file_barred (w : World) (path sid : string) (st : state)
    (e : exn) :
  files st !! path = Some (Barred e) ->
  write_sid_file w path sid st = (Raise e, st).
Proof.
  intros Hf. unfold write_sid_file, os_open_wronly_creat, bind, get_state,
    raise, lift. simpl. by rewrite Hf.
Qed.

(** How [write_sid_file] ends, by what the path holds. *)
Lemma write_sid_file_cases (w : World) (path sid : string) (st : state) :
  write_sid_file w path sid st =
  match files st !! path with
  | None =>
      (Ok tt,
       mkState (<[path := RegularFile
                    (mkFile sid (Z.land 384 (Z.lnot (umask w))))]> (files st))
               (ini_files st) (stdout st))
  | Some (RegularFile f) =>
      if owner_may_write (mode f) then
        (Ok tt,
         mkState (<[path := RegularFile
                      (mkFile (write_at_start sid (content f)) (mode f))]>
                    (files st))
                 (ini_files st) (stdout st))
      else (Raise (PermissionError path), st)
  | Some Directory => (Raise (IsADirectoryError path), st)
  | Some (Barred e) => (Raise e, st)
  end.
Proof.
  destruct (files st !! path) as [[f| |e]|] eqn:Hf.
  - destruct (owner_may_write (mode f)) eqn:Hw.
    + by apply write_sid_file_existing.
    + by apply (write_sid_file_unwritable _ _ _ _ f).
  - by apply write_sid_file_directory.
  - by apply write_sid_file_barred.
  - by apply write_sid_file_absent.
Qed.

(** The bits given to a created cache file lie within 0o600. *)
Lemma created_mode_owner_only (um : Z) :
  Z.land (Z.land 384 (Z.lnot um)) (Z.lnot 384) = 0.
Proof.
  rewrite <- Z.land_assoc, (Z.land_comm (Z.lnot um)), Z.land_assoc.
  change (Z.land 384 (Z.lnot 384)) with 0. apply Z.land_0_l.
Qed.

(** Where the cache file exists, writable, with a content no longer than
    the identifier, or does not exist, the file afterwards holds the
    identifier and nothing else. *)
Lemma write_sid_file_content_ok (w : World) (path sid : string) (st : state) :
  (files st !! path = None
   \/ exists f, files st !! path = Some (RegularFile f)
                /\ owner_may_write (mode f) = true
                /\ (String.length (content f) <= String.length sid)%nat) ->
  exists m,
    files (snd (write_sid_file w path sid st)) !! path
    = Some (RegularFile (mkFile sid m)).
Proof.
  intros [Hf | (f & Hf & Hw & Hlen)].
  - rewrite write_sid_file_absent by done. simpl.
    rewrite lookup_insert_eq. eauto.
  - rewrite (write_sid_file_existing _ _ _ _ f) by done. simpl.
    rewrite lookup_insert_eq, write_at_start_covers by done. eauto.
Qed.

(** C2 fails on an existing, longer cache file.  The file here holds an
    old identifier and a newline, with mode 0o644; after the write it
    holds the new identifier and still the newline, its mode is still
    0o644, and the next read of the cache finds no identifier in it. *)
Theorem write_sid_file_leaves_tail :
  let w := Sample.expired_session_world in
  let st' := snd (write_sid_file w Sample.sid_path Sample.new_sid25
                    Sample.stale_cache_state) in
  files st' !! Sample.sid_path
    = Some (RegularFile (mkFile (Sample.new_sid25 +:+ Sample.newline) 420))
  /\ Sample.new_sid25 +:+ Sample.newline <> Sample.new_sid25
  /\ Z.land 420 (Z.lnot 384) <> 0
  /\ fst (get_sid_from_file w Sample.sid_path st') = Ok None.
Proof.
  simpl. split; [|split; [|split]].
  - vm_compute. reflexivity.
  - vm_compute. discriminate.
  - vm_compute. discriminate.
  - vm_compute. reflexivity.
Qed.

(** In general: over any longer content the file does not end up equal
    to the identifier, and an existing file keeps whatever mode it had. *)
Lemma write_sid_file_not_truncating (w : World) (path sid : string)
    (st : state) (f : file string) :
  files st !! path = Some (RegularFile f) ->
  owner_may_write (mode f) = true ->
  (String.length sid < String.length (content f))%nat ->
  exists c, files (snd (write_sid_file w path sid st)) !! path
            = Some (RegularFile (mkFile c (mode f)))
            /\ c <> sid.
Proof.
  intros Hf Hw Hlen.
  rewrite (write_sid_file_existing _ _ _ _ f) by done. simpl.
  rewrite lookup_insert_eq. eexists. split; [done|].
  by apply write_at_start_longer.
Qed.

(** ** The submission target *)

Lemma form_fold_last (pu : ParseResult) (forms : list Tag) (final : string) :
  fold_left (form_step pu) forms final =
  match last (List.filter has_action forms) with
  | Some f => scheme pu +:+ "://" +:+ netloc pu +:+ Tag_get_default f "action" ""
  | None => final
  end.
Proof.
  revert final. induction forms as [|f forms IH] using rev_ind; intros final.
  - reflexivity.
  - rewrite fold_left_app, List.filter_app. simpl.
    unfold form_step at 1, has_action at 2, Tag_get_default, Tag_get.
    destruct (attrs f !! "action") as [a|] eqn:Ha; simpl.
    + destruct (String.eqb a ""); simpl.
      * rewrite app_nil_r. apply IH.
      * rewrite last_snoc. unfold Tag_get_default. by rewrite Ha.
    + rewrite app_nil_r. apply IH.
Qed.

(** C5, as the code has it: the submission target is the scheme and
    netloc of the entry URL followed by the action of the last form of the
    page that declares a non-empty one, whatever the URL the redirects
    ended at; with no such form it is that final URL. *)
Theorem form_submit_url_spec (w : World) (entry final : string)
    (formsoup : list Tag) :
  form_submit_url w entry final formsoup =
  match last (List.filter has_action (find_all_re ["FORM"; "form"] formsoup)) with
  | Some f =>
      scheme (urlparse w entry) +:+ "://" +:+ netloc (urlparse w entry)
      +:+ Tag_get_default f "action" ""
  | None => final
  end.
Proof. unfold form_submit_url. apply form_fold_last. Qed.

(** One form on the page, with an action. *)
Lemma form_submit_url_one_form (w : World) (entry final action : string)
    (formsoup : list Tag) (f : Tag) :
  find_all_re ["FORM"; "form"] formsoup = [f] ->
  Tag_get f "action" = Some action -> action <> "" ->
  form_submit_url w entry final formsoup =
  scheme (urlparse w entry) +:+ "://" +:+ netloc (urlparse w entry) +:+ action.
Proof.
  intros Hf Ha Hne. unfold form_submit_url. rewrite form_fold_last, Hf.
  simpl. unfold has_action, Tag_get_default. unfold Tag_get in Ha.
  unfold Tag_get. rewrite Ha.
  destruct (String.eqb_spec action ""); [done|]. simpl. by rewrite Ha.
Qed.

(** No form with an action: the target is where the redirects ended. *)
Lemma form_submit_url_no_action (w : World) (entry final : string)
    (formsoup : list Tag) :
  (forall f, In f (find_all_re ["FORM"; "form"] formsoup) ->
             has_action f = false) ->
  form_submit_url w entry final formsoup = final.
Proof.
  intros Hno. unfold form_submit_url. rewrite form_fold_last.
  destruct (last _) as [f|] eqn:Hl; [|done].
  apply last_Some in Hl as [l' Hl].
  assert (Hin : In f (List.filter has_action
                        (find_all_re ["FORM"; "form"] formsoup))).
  { rewrite Hl. apply in_or_app. right. by left. }
  apply List.filter_In in Hin as [Hin Ha]. rewrite (Hno f Hin) in Ha. done.
Qed.

(** The example of the specification. *)
Lemma form_submit_url_example :
  form_submit_url Sample.expired_session_world
    "https://idp.example.com/login/xyz" "https://idp.example.com/login/xyz"
    Sample.login_form
  = "https://idp.example.com/auth/submit".
Proof. vm_compute. reflexivity. Qed.

(** Two forms with an action: the later one decides. *)
Lemma form_submit_url_two_forms :
  form_submit_url Sample.expired_session_world
    "https://idp.example.com/login/xyz" "https://idp.example.com/login/xyz"
    [Sample.form_tag "/a"; Sample.form_tag "/b"]
  = "https://idp.example.com/b".
Proof. vm_compute. reflexivity. Qed.

(** C5 as written fails on a page with a second form.  The login form,
    which holds the username and password fields, declares the action
    /login; a search form after it declares /search; the target is
    /search, not the action of the login form. *)
Lemma form_submit_url_later_form :
  let w := Sample.expired_session_world in
  let entry := "https://idp.example.com/login/xyz" in
  let login_form := Sample.form_tag "/login" in
  head (find_all_re ["FORM"; "form"] Sample.login_and_search_page)
  = Some login_form
  /\ Tag_get login_form "action" = Some "/login"
  /\ form_submit_url w entry entry Sample.login_and_search_page
     = "https://idp.example.com/search"
  /\ form_submit_url w entry entry Sample.login_and_search_page
     <> scheme (urlparse w entry) +:+ "://" +:+ netloc (urlparse w entry)
        +:+ "/login".
Proof.
  split; [reflexivity|]. split; [reflexivity|].
  split; [vm_compute; reflexivity|]. vm_compute. discriminate.
Qed.

(** ** The ARNs of an assertion *)

Lemma append_assoc (a b c : string) : (a +:+ b) +:+ c = a +:+ (b +:+ c).
Proof.
  induction a as [|x a IH]; [done|].
  change (String x ((a +:+ b) +:+ c) = String x (a +:+ (b +:+ c))).
  by rewrite IH.
Qed.

Lemma str_in_comma_cons (c : ascii) (t : string) :
  PyStr.str_in "," (String c t) = Ascii.eqb c "," || PyStr.str_in "," t.
Proof.
  destruct (Ascii.eqb_spec c ",") as [->|Hne]; cbn [PyStr.str_in String.prefix].
  - destruct (ascii_dec "," ","); [|done]. by destruct t.
  - destruct (ascii_dec "," c); [congruence | done].
Qed.

(** A string without a comma is one piece. *)
Lemma split_from_no_comma (acc s : string) :
  PyStr.str_in "," s = false ->
  PyStr.split_from "," acc s = [acc +:+ s].
Proof.
  revert acc. induction s as [|c s IH]; intros acc Hs.
  - simpl. by rewrite append_empty_r.
  - rewrite str_in_comma_cons in Hs. apply orb_false_iff in Hs as [Hc Hs].
    simpl. rewrite Hc, IH by done. by rewrite append_assoc.
Qed.

(** The first comma ends the first piece. *)
Lemma split_from_first_comma (acc p r : string) :
  PyStr.str_in "," p = false ->
  PyStr.split_from "," acc (p +:+ "," +:+ r)
  = (acc +:+ p) :: PyStr.split_from "," "" r.
Proof.
  revert acc. induction p as [|c p IH]; intros acc Hp.
  - change ("" +:+ "," +:+ r) with (String "," r). simpl.
    by rewrite append_empty_r.
  - rewrite str_in_comma_cons in Hp. apply orb_false_iff in Hp as [Hc Hp].
    change (String c p +:+ "," +:+ r) with (String c (p +:+ "," +:+ r)).
    simpl. rewrite Hc, IH by done. by rewrite append_assoc.
Qed.

Lemma split_pair (p r : string) :
  PyStr.str_in "," p = false -> PyStr.str_in "," r = false ->
  PyStr.split "," (p +:+ "," +:+ r) = [p; r].
Proof.
  intros Hp Hr. unfold PyStr.split.
  rewrite split_from_first_comma, split_from_no_comma by done. done.
Qed.

Lemma last_app_option {A} (l1 l2 : list A) :
  last (l1 ++ l2) = match last l2 with Some x => Some x | None => last l1 end.
Proof.
  induction l2 as [|x l2 IH] using rev_ind.
  - by rewrite app_nil_r.
  - by rewrite app_assoc, !last_snoc.
Qed.

(** The inner loop leaves in [arns] the text of the last AttributeValue,
    or what it held when there is none. *)
Lemma arns_inner_last (arns : option (option string)) (a : Element) :
  arns_inner arns a =
  match last (List.map elem_text (iter a urn_attributevalue)) with
  | Some t => Some t
  | None => arns
  end.
Proof.
  unfold arns_inner. generalize (iter a urn_attributevalue) as vs.
  intros vs. revert arns.
  induction vs as [|v vs IH] using rev_ind; intros arns; [done|].
  rewrite fold_left_app, List.map_app. simpl. by rewrite last_snoc.
Qed.

(** After the two loops [arns] is unbound when no Role attribute has a
    value, and holds the text of the last of their values otherwise. *)
Lemma arns_outer_last (root : Element) : arns_outer root = last (role_values root).
Proof.
  unfold arns_outer, role_values.
  generalize (iter root urn_attribute) as attrs. intros attrs.
  induction attrs as [|a attrs IH] using rev_ind; [done|].
  rewrite fold_left_app, List.filter_app, List.flat_map_app, last_app_option.
  simpl. rewrite IH.
  destruct (bool_decide (elem_get a "Name" = Some role_url)); simpl.
  - rewrite app_nil_r, arns_inner_last. done.
  - done.
Qed.

Lemma arns_from_root_pair (root : Element) (assertion p r : string) :
  last (role_values root) = Some (Some (p +:+ "," +:+ r)) ->
  PyStr.str_in "," p = false -> PyStr.str_in "," r = false ->
  arns_from_root root assertion = Returns (mkArnDict r p assertion).
Proof.
  intros Hl Hp Hr. unfold arns_from_root.
  rewrite arns_outer_last, Hl, split_pair by done. done.
Qed.

(** C4, as the code has it: when the last AttributeValue of the Role
    attributes is a pair [p,r], decoding yields PrincipalArn [p] and
    RoleArn [r], with the assertion passed along unchanged. *)
Theorem get_arns_from_assertion_last_value (w : World)
    (assertion : string) (root : Element) (p r : string) (st : state) :
  fromstring_b64decode w assertion = Returns root ->
  last (role_values root) = Some (Some (p +:+ "," +:+ r)) ->
  PyStr.str_in "," p = false -> PyStr.str_in "," r = false ->
  get_arns_from_assertion w assertion st
  = (Ok (mkArnDict r p assertion), st).
Proof.
  intros Hd Hl Hp Hr. unfold get_arns_from_assertion, bind, lift.
  rewrite Hd. by rewrite (arns_from_root_pair _ _ p r).
Qed.

(** The fixture of the specification. *)
Lemma get_arns_from_assertion_last_value_witness :
  get_arns_from_assertion Sample.expired_session_world Sample.token
    Sample.empty_state
  = (Ok (mkArnDict "arn:aws:iam::111:role/Y"
                   "arn:aws:iam::111:saml-provider/X" Sample.token),
     Sample.empty_state).
Proof.
  apply (get_arns_from_assertion_last_value Sample.expired_session_world
           Sample.token Sample.fixture_root
           "arn:aws:iam::111:saml-provider/X" "arn:aws:iam::111:role/Y");
    reflexivity.
Defined.

(** C4 as written fails on an assertion that lists two roles: the first
    value of the Role attribute is the pair of account 111, and decoding
    yields the ARNs of account 222, the last value. *)
Lemma get_arns_first_value_not_used :
  head (role_values Sample.two_roles_root)
    = Some (Some ("arn:aws:iam::111:saml-provider/X" +:+ ","
                  +:+ "arn:aws:iam::111:role/Y"))
  /\ fst (get_arns_from_assertion Sample.two_roles_world Sample.token
            Sample.empty_state)
     = Ok (mkArnDict "arn:aws:iam::222:role/W"
                     "arn:aws:iam::222:saml-provider/V" Sample.token)
  /\ fst (get_arns_from_assertion Sample.two_roles_world Sample.token
            Sample.empty_state)
     <> Ok (mkArnDict "arn:aws:iam::111:role/Y"
                      "arn:aws:iam::111:saml-provider/X" Sample.token).
Proof.
  split; [reflexivity|]. split; [reflexivity|]. vm_compute. discriminate.
Qed.

(** Fewer than two pieces: the index fault of the specification's 4.3. *)
Lemma arns_from_root_no_comma :
  arns_from_root Sample.no_comma_root Sample.token = Raises IndexError.
Proof. reflexivity. Qed.

(** No Role attribute at all: [arns] is read before any assignment. *)
Lemma arns_from_root_no_role_attribute (assertion : string) :
  arns_from_root (mkElement "Response" ∅ None []) assertion
  = Raises (UnboundLocalError "arns").
Proof. reflexivity. Qed.

(** ** The credentials file *)



(** How [write_config] ends, by what the path holds. *)
Lemma write_config_cases (w : World) (path : string) (c : config)
    (st : state) :
  write_config w path c st =
  match ini_files st !! path with
  | None =>
      (Ok tt,
       mkState (files st)
         (<[path := RegularFile
                      (mkFile (config_reread w c)
                         (Z.land 438 (Z.lnot (umask w))))]>
            (ini_files st))
         (stdout st))
  | Some (RegularFile f) =>
      if owner_may_read (mode f) && owner_may_write (mode f) then
        (Ok tt,
         mkState (files st)
           (<[path := RegularFile (mkFile (config_reread w c) (mode f))]>
              (ini_files st))
           (stdout st))
      else (Raise (PermissionError path), st)
  | Some Directory => (Raise (IsADirectoryError path), st)
  | Some (Barred e) => (Raise e, st)
  end.
Proof.
  unfold write_config, bind, get_state, set_ini_files, raise. cbn.
  destruct (ini_files st !! path) as [[f| |e]|]; try done.
  by destruct (owner_may_read (mode f) && owner_may_write (mode f)).
Qed.


(** What [write_config] leaves: the state as it was after a failure, and
    after a success one file of the credentials store replaced, which
    holds the configuration. *)
Lemma write_config_state (w : World) (path : string) (c : config)
    (st : state) :
  (exists e, write_config w path c st = (Raise e, st))
  \/ (exists m, write_config w path c st
                = (Ok tt,
                   mkState (files st)
                     (<[path := RegularFile (mkFile (config_reread w c) m)]>
                        (ini_files st))
                     (stdout st))).
Proof.
  rewrite write_config_cases.
  destruct (ini_files st !! path) as [[f| |e]|]; eauto.
  destruct (owner_may_read (mode f) && owner_may_write (mode f)); eauto.
Qed.



(** What [write_aws_creds] leaves: the state as it was after a failure,
    and after a success one file of the credentials store replaced, which
    holds a configuration. *)
Lemma write_aws_creds_state (w : World)
    (path profile ak sk tok region output : string) (st : state) :
  (exists e, write_aws_creds w path profile ak sk tok region output st
             = (Raise e, st))
  \/ (exists c m, write_aws_creds w path profile ak sk tok region output st
                  = (Ok tt,
                     mkState (files st)
                       (<[path := RegularFile (mkFile (config_reread w c) m)]>
                          (ini_files st))
                       (stdout st))).
Proof.
  assert (Hw : forall c,
    (exists e, write_config w path c st = (Raise e, st))
    \/ (exists c' m, write_config w path c st
                     = (Ok tt,
                        mkState (files st)
                          (<[path := RegularFile
                                       (mkFile (config_reread w c') m)]>
                             (ini_files st))
                          (stdout st)))).
  { intros c. destruct (write_config_state w path c st) as [?|[m ?]]; eauto. }
  unfold write_aws_creds, bind, get_state, lift, ret.
  destruct (config_read st path) as [c|]; [|eauto].
  destruct (negb _).
  - destruct (add_section _ _) as [c0|]; [|eauto].
    destruct (config_set c0 _ _ _) as [c1|]; [|eauto].
    destruct (config_set c1 _ _ _) as [c2|]; [|eauto].
    destruct (config_set c2 _ _ _) as [c3|]; [|eauto].
    destruct (config_set c3 _ _ _) as [c4|]; [|eauto].
    destruct (config_set c4 _ _ _) as [c5|]; [|eauto].
    apply Hw.
  - destruct (config_set _ _ _ _) as [c1|]; [|eauto].
    destruct (config_set c1 _ _ _) as [c2|]; [|eauto].
    destruct (config_set c2 _ _ _) as [c3|]; [|eauto].
    destruct (config_set c3 _ _ _) as [c4|]; [|eauto].
    destruct (config_set c4 _ _ _) as [c5|]; [|eauto].
    apply Hw.
Qed.









(** The profile name DEFAULT: [has_section] does not acknowledge it,
    [add_section] refuses it, and nothing is written. *)
Lemma write_aws_creds_DEFAULT_raises :
  write_aws_creds Sample.expired_session_world Sample.creds_path "DEFAULT"
    "AKIA" "secret" "session" "us-west-2" "json" Sample.one_profile_state
  = (Raise (ValueError "Invalid section name: DEFAULT"),
     Sample.one_profile_state).
Proof. reflexivity. Qed.

(** For the empty profile name an empty section is created and the five
    options land among the DEFAULT options. *)
Lemma write_aws_creds_empty_name (w : World) (path : string) (st : state)
    (c : config) (ak sk tok region output : string) :
  config_read st path = Returns c ->
  sections c !! "" = None ->
  write_aws_creds w path "" ak sk tok region output st
  = write_config w path
      (mkConfig
         (<["aws_session_token" := tok]>
            (<["aws_secret_access_key" := sk]>
               (<["aws_access_key_id" := ak]>
                  (<["region" := region]>
                     (<["output" := output]> (defaults c))))))
         (<["" := ∅]> (sections c))) st.
Proof.
  intros Hc Hs. unfold write_aws_creds.
  unfold bind at 1. unfold get_state at 1.
  unfold bind at 1. unfold lift at 1. rewrite Hc.
  unfold has_section. rewrite Hs.
  rewrite bool_decide_eq_false_2 by (intros [? ?]; done). simpl.
  unfold bind at 1. unfold lift at 1. unfold add_section, has_section.
  rewrite Hs. rewrite bool_decide_eq_false_2 by (intros [? ?]; done).
  reflexivity.
Qed.


(** ** The remaining validity, in minutes *)

Section Rounding.

Import PyFloat.

Lemma round_half_even_ge (a b n : Z) :
  0 < b -> n * b <= a -> n <= round_half_even a b.
Proof.
  intros Hb Hn. unfold round_half_even.
  pose proof (Z.div_mod a b ltac:(lia)) as Hdm.
  pose proof (Z.mod_pos_bound a b Hb) as Hr.
  assert (n <= a / b) by nia.
  repeat case_match; lia.
Qed.

Lemma round_half_even_le (a b n : Z) :
  0 < b -> a <= n * b -> round_half_even a b <= n.
Proof.
  intros Hb Hn. unfold round_half_even.
  pose proof (Z.div_mod a b ltac:(lia)) as Hdm.
  pose proof (Z.mod_pos_bound a b Hb) as Hr.
  assert (a / b <= n) by nia.
  destruct (Z.ltb_spec (2 * (a mod b)) b) as [H1|H1]; [lia|].
  assert (a / b < n) by nia.
  repeat case_match; lia.
Qed.

(** The exponent [true_div] picks leaves at least 53 bits. *)
Lemma true_div_exponent (m b : Z) :
  0 < m -> 0 < b ->
  let e1 := Z.log2 m - Z.log2 b - 52 in
  let e := if scaled_ltb m b e1 (2 ^ 52) then e1 - 1 else e1 in
  (0 <= e -> 2 ^ 52 * (b * 2 ^ e) <= m)
  /\ (e < 0 -> 2 ^ 52 * b <= m * 2 ^ (- e)).
Proof.
  intros Hm Hb e1 e.
  destruct (Z.log2_spec m Hm) as [Hm1 Hm2].
  destruct (Z.log2_spec b Hb) as [Hb1 Hb2].
  pose proof (Z.log2_nonneg m) as Hlm. pose proof (Z.log2_nonneg b) as Hlb.
  rewrite <- Z.add_1_r in Hm2, Hb2.
  unfold e. unfold scaled_ltb.
  destruct (Z.leb_spec 0 e1) as [He1|He1].
  - destruct (Z.ltb_spec m (2 ^ 52 * (b * 2 ^ e1))) as [Hlt|Hge].
    + split.
      * intros He.
        assert (Hp : 2 ^ Z.log2 m = 2 ^ 52 * (2 ^ (Z.log2 b + 1) * 2 ^ (e1 - 1))).
        { rewrite <- !Z.pow_add_r by lia. f_equal. unfold e1. lia. }
        assert (0 < 2 ^ (e1 - 1)) by (apply Z.pow_pos_nonneg; lia).
        nia.
      * intros He.
        assert (e1 = 0) as He0 by lia.
        replace (- (e1 - 1)) with 1 by lia.
        assert (Hp : 2 ^ Z.log2 m * 2 ^ 1 = 2 ^ 52 * 2 ^ (Z.log2 b + 1)).
        { rewrite <- !Z.pow_add_r by lia. f_equal. unfold e1 in He0. lia. }
        nia.
    + split; [lia|]. lia.
  - destruct (Z.ltb_spec (m * 2 ^ (- e1)) (2 ^ 52 * b)) as [Hlt|Hge].
    + split; [lia|]. intros _.
      assert (Hp : 2 ^ Z.log2 m * 2 ^ (- (e1 - 1))
                   = 2 ^ 52 * 2 ^ (Z.log2 b + 1)).
      { rewrite <- !Z.pow_add_r by lia. f_equal. unfold e1. lia. }
      assert (0 < 2 ^ (- (e1 - 1))) by (apply Z.pow_pos_nonneg; lia).
      nia.
    + split; [lia|]. intros _. lia.
Qed.

(** Rounding to nearest moves a quotient by at most a half. *)
Lemma round_half_even_ge_half (a b n : Z) :
  0 < b -> (2 * n - 1) * b < 2 * a -> n <= round_half_even a b.
Proof.
  intros Hb Hn. unfold round_half_even.
  pose proof (Z.div_mod a b ltac:(lia)) as Hdm.
  pose proof (Z.mod_pos_bound a b Hb) as Hr.
  assert (n <= a / b + 1) by nia.
  destruct (Z.ltb_spec (2 * (a mod b)) b) as [H1|H1]; [nia|].
  destruct (Z.ltb_spec b (2 * (a mod b))) as [H2|H2]; [lia|].
  assert (n <= a / b) by nia.
  case_match; lia.
Qed.

Lemma round_half_even_le_half (a b n : Z) :
  0 < b -> 2 * a < (2 * n + 1) * b -> round_half_even a b <= n.
Proof.
  intros Hb Hn. unfold round_half_even.
  pose proof (Z.div_mod a b ltac:(lia)) as Hdm.
  pose proof (Z.mod_pos_bound a b Hb) as Hr.
  assert (a / b <= n) by nia.
  destruct (Z.ltb_spec (2 * (a mod b)) b) as [H1|H1]; [lia|].
  assert (a / b < n) by nia.
  repeat case_match; lia.
Qed.

(** Below 2^28 times the divisor the quotient is scaled up by a power of
    two that is at least 2^25. *)
Lemma true_div_small (a b : Z) :
  a <> 0 -> 0 < b -> Z.abs a < 2 ^ 28 * b ->
  exists E, 0 < E /\ 2 ^ 25 <= 2 ^ E
    /\ true_div a b
       = mkFloat (Z.sgn a * round_half_even (Z.abs a * 2 ^ E) b) (- E).
Proof.
  intros Ha Hb Hlt. unfold true_div.
  destruct (Z.eqb_spec a 0) as [|_]; [done|].
  assert (Hm : 0 < Z.abs a) by lia.
  pose proof (true_div_exponent (Z.abs a) b Hm Hb) as He. simpl in He.
  set (e := if scaled_ltb _ _ _ _ then _ else _) in *.
  destruct He as [He1 He2].
  assert (Hneg : e < 0).
  { destruct (Z.lt_ge_cases e 0) as [|Hge]; [done|]. exfalso.
    specialize (He1 Hge).
    assert (0 < 2 ^ e) by (apply Z.pow_pos_nonneg; lia).
    change (2 ^ 52) with 4503599627370496 in He1.
    change (2 ^ 28) with 268435456 in Hlt. nia. }
  specialize (He2 Hneg). exists (- e). split; [lia|]. split.
  - assert (H24 : 2 ^ 24 < 2 ^ (- e)).
    { change (2 ^ 52) with 4503599627370496 in He2.
      change (2 ^ 28) with 268435456 in Hlt.
      change (2 ^ 24) with 16777216. nia. }
    apply Z.pow_lt_mono_r_iff in H24; [|lia|lia].
    apply Z.pow_le_mono_r; lia.
  - unfold scaled_round. destruct (Z.leb_spec 0 e); [lia|].
    by rewrite Z.opp_involutive.
Qed.

(** [math.ceil] of the quotient is the ceiling of the exact quotient, for
    a divisor below 2^26 and a dividend below 2^28 times it: the quotient
    is then rounded to a multiple of 2^-25 or finer, so moved by at most
    2^-26, which is less than one part in the divisor. *)
Lemma ceil_true_div_small (d c : Z) :
  0 < c -> c < 2 ^ 26 -> Z.abs d < 2 ^ 28 * c ->
  (ceil (true_div d c) - 1) * c < d <= ceil (true_div d c) * c.
Proof.
  intros Hc Hc26 Hd.
  destruct (Z.eq_dec d 0) as [->|Hne].
  { unfold true_div, ceil. simpl. lia. }
  destruct (true_div_small d c Hne Hc Hd) as (E & HE & HP & ->).
  unfold ceil. simpl. destruct (Z.leb_spec 0 (- E)); [lia|].
  rewrite Z.opp_involutive.
  set (P := 2 ^ E) in *.
  change (2 ^ 25) with 33554432 in HP. change (2 ^ 26) with 67108864 in Hc26.
  assert (HPc : c < 2 * P) by lia. assert (HP0 : 0 < P) by lia.
  destruct (Z.lt_total d 0) as [Hlt|[?|Hgt]]; [|lia|].
  - (* a negative duration *)
    rewrite Z.sgn_neg by done. rewrite Z.abs_neq in * by lia.
    set (m := - d) in *.
    set (s := round_half_even (m * P) c).
    pose proof (Z.div_mod m c ltac:(lia)) as Hdm.
    pose proof (Z.mod_pos_bound m c Hc) as Hr.
    set (F := m / c) in *.
    assert (Hlo : F * P <= s).
    { apply round_half_even_ge; [done|]. nia. }
    assert (Hhi : s <= (F + 1) * P - 1).
    { apply round_half_even_le_half; [done|].
      assert (m * P <= (c * F + c - 1) * P) by nia. nia. }
    replace (- (-1 * s)) with s by lia.
    assert (Hq : s / P = F).
    { symmetry. apply (Z.div_unique _ _ _ (s - F * P)); lia. }
    rewrite Hq. lia.
  - (* a positive duration *)
    rewrite Z.sgn_pos by lia. rewrite Z.abs_eq in * by lia.
    set (s := round_half_even (d * P) c).
    pose proof (Z.div_mod (- d) c ltac:(lia)) as Hdm.
    pose proof (Z.mod_pos_bound (- d) c Hc) as Hr.
    set (K := - ((- d) / c)).
    assert (HK : (K - 1) * c < d <= K * c) by (unfold K; lia).
    assert (Hhi : s <= K * P).
    { apply round_half_even_le; [done|]. nia. }
    assert (Hlo : (K - 1) * P + 1 <= s).
    { apply round_half_even_ge_half; [done|].
      assert (((K - 1) * c + 1) * P <= d * P) by nia. nia. }
    replace (1 * s) with s by lia.
    assert (Hq : (- s) / P = - K).
    { symmetry. apply (Z.div_unique _ _ _ (- s + K * P)); lia. }
    rewrite Hq. lia.
Qed.

End Rounding.

(** C8, as the code has it: for a remaining validity of at most 2^28
    minutes (about 510 years) in either direction, the minute count is the
    least integer [n] with [n] minutes no shorter than it. *)
Theorem valid_minutes_rounds_up (expiration now : Z) :
  Z.abs (expiration - now) <= 2 ^ 28 * one_minute ->
  expiration - now <= valid_minutes expiration now * one_minute
  /\ (forall n, expiration - now <= n * one_minute ->
                valid_minutes expiration now <= n).
Proof.
  intros Hd. unfold valid_minutes.
  set (d := expiration - now) in *.
  destruct (Z.eq_dec (Z.abs d) (2 ^ 28 * one_minute)) as [He|Hne].
  - assert (Hv : PyFloat.ceil
                   (PyFloat.true_div (2 ^ 28 * one_minute) one_minute)
                 = 2 ^ 28) by (vm_compute; reflexivity).
    assert (Hv' : PyFloat.ceil
                    (PyFloat.true_div (- (2 ^ 28 * one_minute)) one_minute)
                  = - 2 ^ 28) by (vm_compute; reflexivity).
    assert (Hd2 : d = 2 ^ 28 * one_minute \/ d = - (2 ^ 28 * one_minute))
      by lia.
    unfold one_minute in *. change (2 ^ 28) with 268435456 in *.
    destruct Hd2 as [-> | ->].
    + rewrite Hv. split; [lia|]. intros n Hn. lia.
    + rewrite Hv'. split; [lia|]. intros n Hn. lia.
  - pose proof (ceil_true_div_small d one_minute) as H.
    unfold one_minute in *.
    specialize (H ltac:(lia) ltac:(done) ltac:(lia)).
    split; [lia|]. intros n Hn. nia.
Qed.

(** 90 seconds and exactly 120 seconds left: 2 minutes each. *)
Lemma valid_minutes_rounds_up_witness :
  (90000000 - 0 <= valid_minutes 90000000 0 * one_minute
   /\ (forall n, 90000000 - 0 <= n * one_minute ->
                 valid_minutes 90000000 0 <= n))
  /\ valid_minutes 90000000 0 = 2
  /\ valid_minutes 120000000 0 = 2.
Proof.
  split; [|split; reflexivity].
  apply (valid_minutes_rounds_up 90000000 0). unfold one_minute. lia.
Defined.

(** C8 as written fails far ahead: with 2^28 minutes and one microsecond
    left, 2^28 minutes are reported, which is short of the duration. *)
Lemma valid_minutes_far_expiration :
  let d := 2 ^ 28 * one_minute + 1 in
  valid_minutes d 0 = 2 ^ 28
  /\ ~ (d - 0 <= valid_minutes d 0 * one_minute).
Proof. split; [vm_compute; reflexivity|]. vm_compute. intros H. by apply H. Qed.

(** ** The orchestration *)

Lemma no_exit_ret {A} (a : A) : no_exit (ret a).
Proof. by intros st code. Qed.

Lemma no_exit_lift {A} (r : fallible A) : no_exit (lift r).
Proof. intros st code. by destruct r. Qed.

Lemma no_exit_raise {A} (e : exn) : no_exit (@raise A e).
Proof. by intros st code. Qed.

Lemma no_exit_print (line : string) : no_exit (print line).
Proof. by intros st code. Qed.

Lemma no_exit_get_state : no_exit get_state.
Proof. by intros st code. Qed.

Lemma no_exit_set_files fs : no_exit (set_files fs).
Proof. by intros st code. Qed.

Lemma no_exit_set_ini_files cs : no_exit (set_ini_files cs).
Proof. by intros st code. Qed.

Lemma no_exit_bind {A B} (m : M A) (k : A -> M B) :
  no_exit m -> (forall a, no_exit (k a)) -> no_exit (bind m k).
Proof.
  intros Hm Hk st code. unfold bind.
  specialize (Hm st). destruct (m st) as [[a|c|e] st']; simpl in *.
  - apply Hk.
  - by destruct (Hm c).
  - done.
Qed.

Create HintDb no_exit.
#[local] Hint Resolve no_exit_ret no_exit_lift no_exit_raise no_exit_print
  no_exit_get_state no_exit_set_files no_exit_set_ini_files : no_exit.

Ltac no_exit_step :=
  first [ apply no_exit_bind; [|intros ?]
        | progress auto with no_exit
        | match goal with |- no_exit (match ?x with _ => _ end) => destruct x end
        | match goal with |- no_exit (if ?x then _ else _) => destruct x end ].

Lemma no_exit_write_sid_file w path s : no_exit (write_sid_file w path s).
Proof.
  unfold write_sid_file, os_open_wronly_creat. repeat no_exit_step.
Qed.

Lemma no_exit_write_aws_creds w path profile ak sk tok region output :
  no_exit (write_aws_creds w path profile ak sk tok region output).
Proof. unfold write_aws_creds, write_config. repeat no_exit_step. Qed.

Lemma no_exit_use_assertion w path region output assertion :
  no_exit (use_assertion w path region output assertion).
Proof.
  unfold use_assertion, get_arns_from_assertion, get_sts_token.
  pose proof no_exit_write_aws_creds.
  repeat no_exit_step.
Qed.

Lemma len_zero (s : string) : (PyStr.len s =? 0) = true <-> s = "".
Proof.
  unfold PyStr.len. destruct s; simpl; split; done.
Qed.

(** Reading the cache changes nothing and never exits. *)
Lemma get_sid_from_file_run (w : World) (path : string) (st : state) :
  get_sid_from_file w path st = (fst (get_sid_from_file w path st), st)
  /\ forall code, fst (get_sid_from_file w path st) <> SysExit code.
Proof.
  rewrite get_sid_from_file_unfold. simpl. split; [done|]. intros code.
  destruct (files st !! path) as [[f| |e]|]; try done.
  destruct (owner_may_read (mode f)); [|done].
  destruct (decode w (content f)) as [t|e]; [|done].
  by destruct (PyStr.len (universal_newlines t) =? 25).
Qed.

(** Closes a goal [exists st', files st' = files st /\ m st = (r, st')]
    once [m st] has been computed. *)
Ltac run_ends := eexists; split; [|reflexivity]; reflexivity.

(** How [get_user_creds] ends; it only prints. *)
Lemma get_user_creds_run (w : World) (st : state) :
  exists st',
    files st' = files st /\
    get_user_creds w st =
    (match chosen_username w with
     | Returns u =>
         if PyStr.len (getpass w (password_prompt u)) =? 0 then SysExit 1
         else Ok (mkUserCreds u (getpass w (password_prompt u)))
     | Raises e => Raise e
     end, st').
Proof.
  unfold get_user_creds, chosen_username, password_prompt, bind, ret, lift,
    sys_exit, print.
  destruct (args_username (args w)) as [u|]; simpl.
  - destruct (PyStr.len _ =? 0); run_ends.
  - destruct (environ w !! "OKTA_USERNAME") as [u|]; simpl.
    + destruct (PyStr.len _ =? 0); run_ends.
    + destruct (raw_input w) as [u|e]; simpl; [|run_ends].
      destruct (PyStr.len _ =? 0); run_ends.
Qed.

(** How [okta_password_login] ends; it only prints. *)
Lemma okta_password_login_run (w : World) (u pw : string) (st : state) :
  exists st',
    files st' = files st /\
    okta_password_login w u pw idp_entry_url st =
    (match session_get w idp_entry_url ∅ with
     | Raises e => Raise e
     | Returns formresponse =>
         match session_post w
                 (form_submit_url w idp_entry_url (url formresponse)
                    (BeautifulSoup w (text formresponse)))
                 (build_payload u pw (BeautifulSoup w (text formresponse)))
         with
         | Raises e => Raise e
         | Returns response =>
             if PyStr.str_in "Sign in failed!" (text response) then SysExit 1
             else match cookies response !! "sid" with
                  | Some s => Ok (mkLoginResult response s)
                  | None => Raise (KeyError "sid")
                  end
         end
     end, st').
Proof.
  unfold okta_password_login, bind, ret, lift, sys_exit, raise, print.
  destruct (session_get w idp_entry_url ∅) as [fr|e]; [|run_ends].
  destruct (session_post _ _ _) as [r|e]; [|run_ends].
  destruct (PyStr.str_in _ _); [run_ends|].
  destruct (cookies r !! "sid"); run_ends.
Qed.

(** The password path exits in two cases only, both with code 1. *)
Lemma password_path_exit (w : World) (st : state) (code : Z) :
  fst (password_path w st) = SysExit code <->
  code = 1 /\ (sign_in_failed_marker w \/ empty_password_entered w).
Proof.
  unfold password_path, bind at 1.
  destruct (get_user_creds_run w st) as (st1 & _ & ->).
  unfold sign_in_failed_marker, empty_password_entered.
  destruct (chosen_username w) as [u|e] eqn:Hu.
  2:{ simpl. split; [done|]. intros [_ [(?&?&?&?&_)|(?&?&_)]]; done. }
  destruct (PyStr.len (getpass w (password_prompt u)) =? 0) eqn:Hlen.
  { simpl. apply len_zero in Hlen. split.
    - intros [= <-]. split; [done|]. right. eauto.
    - intros [-> _]. done. }
  assert (Hpw : getpass w (password_prompt u) <> "").
  { intros Hp. apply len_zero in Hp. congruence. }
  unfold bind at 1. simpl uc_username. simpl uc_password.
  destruct (okta_password_login_run w u (getpass w (password_prompt u)) st1)
    as (st2 & _ & ->).
  destruct (session_get w idp_entry_url ∅) as [fr|e] eqn:Hg.
  2:{ simpl. split; [done|].
      intros [_ [(?&?&?&?&?&?&_)|(?&?&?)]]; simplify_eq; congruence. }
  destruct (session_post _ _ _) as [r|e] eqn:Hs.
  2:{ simpl. split; [done|].
      intros [_ [(?&?&?&?&?&?&?&_)|(?&?&?)]]; simplify_eq; congruence. }
  destruct (PyStr.str_in "Sign in failed!" (text r)) eqn:Hm.
  { simpl. split.
    - intros [= <-]. split; [done|]. left. exists u, fr, r. done.
    - intros [-> _]. done. }
  assert (Hno : ~ (code = 1 /\
     ((exists u0 formresponse response,
         Returns u = Returns u0
         /\ getpass w (password_prompt u0) <> ""
         /\ Returns fr = Returns formresponse
         /\ session_post w
              (form_submit_url w idp_entry_url (url formresponse)
                 (BeautifulSoup w (text formresponse)))
              (build_payload u0 (getpass w (password_prompt u0))
                 (BeautifulSoup w (text formresponse))) = Returns response
         /\ PyStr.str_in "Sign in failed!" (text response) = true)
      \/ (exists u0, Returns u = Returns u0
                     /\ getpass w (password_prompt u0) = "")))).
  { intros [_ [(?&?&?&?&?&?&?&?)|(?&?&?)]]; simplify_eq; congruence. }
  destruct (cookies r !! "sid") as [s|]; simpl.
  2:{ split; [done|]. intros H. by destruct Hno. }
  unfold bind.
  pose proof (no_exit_write_sid_file w (sid_cache_file_of w) s st2) as Hw.
  destruct (write_sid_file w (sid_cache_file_of w) s st2) as [[[]|c|e] st3];
    simpl in *.
  - split; [done|]. intros H. by destruct Hno.
  - by destruct (Hw c).
  - split; [done|]. intros H. by destruct Hno.
Qed.

(** Writing the cache succeeds exactly where [os.open] lets it. *)
Lemma write_sid_file_ok (w : World) (path sid : string) (st : state) :
  fst (write_sid_file w path sid st) = Ok tt <->
  may_write_file st path = true.
Proof.
  rewrite write_sid_file_cases. unfold may_write_file.
  destruct (files st !! path) as [[f| |e]|]; simpl; try done.
  by destruct (owner_may_write (mode f)).
Qed.

Lemma may_write_file_files (st st' : state) (path : string) :
  files st' = files st -> may_write_file st' path = may_write_file st path.
Proof. intros H. unfold may_write_file. by rewrite H. Qed.

(** The password path ends without an assertion. *)
Lemma password_path_none (w : World) (st : state) :
  fst (password_path w st) = Ok None <->
  password_login_without_assertion w st.
Proof.
  unfold password_path, bind at 1.
  destruct (get_user_creds_run w st) as (st1 & Hf1 & ->).
  unfold password_login_without_assertion.
  destruct (chosen_username w) as [u|e] eqn:Hu.
  2:{ simpl. split; [done|]. intros (?&?&?&?&?&_). done. }
  destruct (PyStr.len (getpass w (password_prompt u)) =? 0) eqn:Hlen.
  { simpl. apply len_zero in Hlen. split; [done|].
    intros (?&?&?&?&?&?&_). simplify_eq; congruence. }
  unfold bind at 1. simpl uc_username. simpl uc_password.
  destruct (okta_password_login_run w u (getpass w (password_prompt u)) st1)
    as (st2 & Hf2 & ->).
  destruct (session_get w idp_entry_url ∅) as [fr|e] eqn:Hg.
  2:{ simpl. split; [done|]. intros (?&?&?&?&?&?&?&_). simplify_eq. }
  destruct (session_post _ _ _) as [r|e] eqn:Hs.
  2:{ simpl. split; [done|].
      intros (?&?&?&?&?&?&?&?&_). simplify_eq; congruence. }
  destruct (PyStr.str_in "Sign in failed!" (text r)) eqn:Hm.
  { simpl. split; [done|].
    intros (?&?&?&?&?&?&?&?&?&_). simplify_eq; congruence. }
  destruct (cookies r !! "sid") as [s|] eqn:Hc.
  2:{ simpl. split; [done|].
      intros (?&?&?&?&?&?&?&?&?&?&_). simplify_eq; congruence. }
  simpl lr_sid. simpl lr_response. unfold bind.
  pose proof (write_sid_file_ok w (sid_cache_file_of w) s st2) as Hw.
  rewrite (may_write_file_files st st2) in Hw by congruence.
  destruct (write_sid_file w (sid_cache_file_of w) s st2) as [[[]|c|e] st3];
    simpl in *.
  - unfold ret. simpl. split.
    + intros [= Ha]. exists u, fr, r, s.
      split; [done|].
      split; [intros Hp; apply len_zero in Hp; congruence|].
      do 4 (split; [done|]). split; [by apply Hw|done].
    + intros (u' & fr' & r' & s' & Hu' & _ & Hg' & Hs' & _ & _ & _ & Ha').
      simplify_eq. congruence.
  - split; [done|]. intros (?&?&?&?&?&?&?&?&?&?&Hd&?).
    by pose proof (proj2 Hw Hd).
  - split; [done|]. intros (?&?&?&?&?&?&?&?&?&?&Hd&?).
    by pose proof (proj2 Hw Hd).
Qed.

(** The login, by cases on the identifier at hand and on what the cookie
    login brings back. *)
Lemma login_cases (w : World) (st : state) :
  login w true (sid_cache_file_of w) st =
  match sid_at_hand w st with
  | Ok None => password_path w st
  | Ok (Some s) =>
      match session_get w idp_entry_url (<["sid" := s]> ∅) with
      | Raises e => (Raise e, st)
      | Returns r =>
          match get_saml_assertion w r with
          | Some a => (Ok (Some a), st)
          | None => password_path w st
          end
      end
  | SysExit code => (SysExit code, st)
  | Raise e => (Raise e, st)
  end.
Proof.
  assert (Hcookie : forall s,
    (let* cookie_response := okta_cookie_login w s idp_entry_url in
     match get_saml_assertion w cookie_response with
     | Some _ => ret (get_saml_assertion w cookie_response)
     | None => password_path w
     end) st
    = match session_get w idp_entry_url (<["sid" := s]> ∅) with
      | Raises e => (Raise e, st)
      | Returns r =>
          match get_saml_assertion w r with
          | Some a => (Ok (Some a), st)
          | None => password_path w st
          end
      end).
  { intros s. unfold bind at 1. unfold okta_cookie_login, lift.
    destruct (session_get _ _ _) as [r|e]; [|done].
    destruct (get_saml_assertion w r); done. }
  unfold login, sid_at_hand.
  destruct (args_sid (args w)) as [s|].
  - rewrite <- Hcookie. reflexivity.
  - destruct (get_sid_from_file_run w (sid_cache_file_of w) st) as [Ho _].
    unfold bind at 1. rewrite Ho. simpl fst.
    destruct (fst (get_sid_from_file w (sid_cache_file_of w) st))
      as [[s|]|c|e]; cbv beta iota.
    + rewrite <- Hcookie. reflexivity.
    + reflexivity.
    + reflexivity.
    + reflexivity.
Qed.

(** The search for an identifier never exits. *)
Lemma sid_at_hand_no_exit (w : World) (st : state) (code : Z) :
  sid_at_hand w st <> SysExit code.
Proof.
  unfold sid_at_hand. destruct (args_sid (args w)); [done|].
  apply get_sid_from_file_run.
Qed.

Lemma available_sid_at_hand (w : World) (st : state) (s : string) :
  available_sid w st = Some s -> sid_at_hand w st = Ok (Some s).
Proof.
  unfold available_sid. destruct (sid_at_hand w st) as [o|c|e]; try done.
  by intros ->.
Qed.

(** The login exits exactly when the password login is reached and ends
    in one of its two exits. *)
Lemma login_exit (w : World) (st : state) (code : Z) :
  fst (login w true (sid_cache_file_of w) st) = SysExit code <->
  code = 1 /\ password_login_reached w st
  /\ (sign_in_failed_marker w \/ empty_password_entered w).
Proof.
  rewrite login_cases. unfold password_login_reached, cookie_assertion_missing.
  pose proof (sid_at_hand_no_exit w st) as Hne.
  destruct (sid_at_hand w st) as [[s|]|c|e].
  - destruct (session_get w idp_entry_url (<["sid" := s]> ∅)) as [r|e] eqn:Hg.
    + destruct (get_saml_assertion w r) as [a|] eqn:Ha.
      * simpl. split; [done|]. intros (_ & (r' & [= <-] & Hr') & _). congruence.
      * rewrite password_path_exit. split.
        -- intros [-> H]. split; [done|]. split; [eauto|done].
        -- intros (-> & _ & H). done.
    + simpl. split; [done|]. intros (_ & (r' & [=] & _) & _).
  - rewrite password_path_exit. tauto.
  - by destruct (Hne c).
  - simpl. split; [done|]. tauto.
Qed.

(** The login ends without an assertion. *)
Lemma login_none (w : World) (st : state) :
  fst (login w true (sid_cache_file_of w) st) = Ok None <->
  no_assertion_obtained w st.
Proof.
  rewrite login_cases.
  unfold no_assertion_obtained, password_login_reached,
    cookie_assertion_missing.
  destruct (sid_at_hand w st) as [[s|]|c|e].
  - destruct (session_get w idp_entry_url (<["sid" := s]> ∅)) as [r|e] eqn:Hg.
    + destruct (get_saml_assertion w r) as [a|] eqn:Ha.
      * simpl. split; [done|]. intros [(r' & [= <-] & Hr') _]. congruence.
      * rewrite password_path_none. split; [eauto|tauto].
    + simpl. split; [done|]. intros [(r' & [=] & _) _].
  - rewrite password_path_none. tauto.
  - simpl. split; [done|]. tauto.
  - simpl. split; [done|]. tauto.
Qed.

(** An input named SAMLResponse is needed for an assertion. *)
Lemma first_SAMLResponse_absent (inputs : list Tag) :
  (forall t, In t inputs -> Tag_get t "name" <> Some "SAMLResponse") ->
  first_SAMLResponse inputs = None.
Proof.
  induction inputs as [|t inputs IH]; intros Hno; [done|]. simpl.
  rewrite bool_decide_eq_false_2 by (apply Hno; by left).
  apply IH. intros t' Ht'. apply Hno. by right.
Qed.

Lemma main_unfold (w : World) (st : state) :
  main w st
  = (let* assertion := login w true (sid_cache_file_of w) in
     after_login w assertion) st.
Proof. reflexivity. Qed.

(** C6: with an identifier at hand (from the argument or the cache) and
    a cookie-login page that has no input named SAMLResponse, the login
    goes on as the password path does from the very same state (nothing
    printed, nothing exited), [main] is that path followed by what follows
    every login, and once that path brings an assertion [main] goes on to
    use it. *)
Theorem expired_session_falls_back (w : World) (st : state) (s : string)
    (r : Response) :
  available_sid w st = Some s ->
  session_get w idp_entry_url (<["sid" := s]> ∅) = Returns r ->
  (forall t, In t (find_all "input" (BeautifulSoup w (text r))) ->
             Tag_get t "name" <> Some "SAMLResponse") ->
  login w true (sid_cache_file_of w) st = password_path w st
  /\ main w st = (let* assertion := password_path w in
                  after_login w assertion) st
  /\ (forall a st', password_path w st = (Ok (Some a), st') ->
        main w st
        = use_assertion w (home w +:+ "/.aws/credentials") "us-west-2"
            "json" a st').
Proof.
  intros Hs Hg Hno.
  assert (Ha : get_saml_assertion w r = None).
  { unfold get_saml_assertion. by apply first_SAMLResponse_absent. }
  assert (Hl : login w true (sid_cache_file_of w) st = password_path w st).
  { rewrite login_cases, (available_sid_at_hand _ _ _ Hs), Hg, Ha. done. }
  split; [done|]. split.
  - rewrite main_unfold. unfold bind. by rewrite Hl.
  - intros a st' Hp. rewrite main_unfold. unfold bind. by rewrite Hl, Hp.
Qed.

(** A cached identifier that has expired: the run ends with status 0,
    the profile written and the new identifier cached. *)
Lemma expired_session_falls_back_witness :
  let w := Sample.expired_session_world in
  let st := Sample.cached_state in
  main w st = (let* assertion := password_path w in
               after_login w assertion) st
  /\ exit_status (fst (main w st)) = 0
  /\ files (snd (main w st)) !! Sample.sid_path
     = Some (RegularFile (mkFile Sample.new_sid25 384)).
Proof.
  destruct (expired_session_falls_back Sample.expired_session_world
              Sample.cached_state Sample.sid25
              (mkResponse idp_entry_url Sample.login_page_text ∅))
    as (_ & Hmain & _).
  - vm_compute. reflexivity.
  - vm_compute. reflexivity.
  - intros t Ht. vm_compute in Ht.
    destruct Ht as [<-|[<-|[<-|[]]]]; vm_compute; intros H; discriminate H.
  - split; [exact Hmain|]. split; vm_compute; reflexivity.
Defined.

(** C7, as the code has it: [main] calls [sys.exit] in three cases only,
    each with code 1 (the password login is reached and its response
    carries the marker; it is reached and the password entered is empty;
    the login ran to its end without an assertion).  The status is 0
    exactly when [main] runs to its end, and 1 after [sys.exit(1)] as well
    as after any exception, none of which is caught. *)
Theorem main_exit_cases (w : World) (st : state) :
  (forall code,
     fst (main w st) = SysExit code <->
     code = 1
     /\ ((password_login_reached w st /\ sign_in_failed_marker w)
         \/ (password_login_reached w st /\ empty_password_entered w)
         \/ no_assertion_obtained w st))
  /\ (exit_status (fst (main w st)) = 0 <-> fst (main w st) = Ok tt)
  /\ (exit_status (fst (main w st)) = 1 <->
      fst (main w st) = SysExit 1 \/ exists e, fst (main w st) = Raise e).
Proof.
  assert (Hexit : forall code,
     fst (main w st) = SysExit code <->
     code = 1
     /\ ((password_login_reached w st /\ sign_in_failed_marker w)
         \/ (password_login_reached w st /\ empty_password_entered w)
         \/ no_assertion_obtained w st)).
  { intros code. rewrite main_unfold. rewrite <- (login_none w st).
    pose proof (login_exit w st) as Hle. unfold bind.
    destruct (login w true (sid_cache_file_of w) st) as [[[a|]|c|e] st']
      eqn:Hl; simpl in *.
    - pose proof (no_exit_use_assertion w (home w +:+ "/.aws/credentials")
                    "us-west-2" "json" a st' code) as Hn.
      split; [done|]. intros (_ & [[Hr Hm]|[[Hr Hm]|?]]); [| |done].
      + by pose proof (proj2 (Hle 1) (conj eq_refl (conj Hr (or_introl Hm)))).
      + by pose proof (proj2 (Hle 1) (conj eq_refl (conj Hr (or_intror Hm)))).
    - split.
      + intros [= <-]. split; [done|]. by right; right.
      + intros [-> _]. done.
    - split.
      + intros [= <-].
        destruct (proj1 (Hle c) eq_refl) as (-> & Hr & [Hm|Hm]); split; auto.
      + intros (-> & [[Hr Hm]|[[Hr Hm]|?]]); [| |done].
        * pose proof (proj2 (Hle 1) (conj eq_refl (conj Hr (or_introl Hm)))).
          congruence.
        * pose proof (proj2 (Hle 1) (conj eq_refl (conj Hr (or_intror Hm)))).
          congruence.
    - split; [done|]. intros (_ & [[Hr Hm]|[[Hr Hm]|?]]); [| |done].
      + by pose proof (proj2 (Hle 1) (conj eq_refl (conj Hr (or_introl Hm)))).
      + by pose proof (proj2 (Hle 1) (conj eq_refl (conj Hr (or_intror Hm)))). }
  split; [exact Hexit|].
  destruct (fst (main w st)) as [[]|c|e] eqn:Hm; simpl.
  - split; [done|]. split; [done|]. intros [?|[? ?]]; done.
  - destruct (proj1 (Hexit c) eq_refl) as [-> _].
    split; [done|]. split; [by left | done].
  - split; [done|]. split; [eauto | done].
Qed.

(** C7 as written fails: the session given on the command line is
    accepted and the assertion has a Role value without a comma.  The
    script ends in an uncaught IndexError, so with status 1, and none of
    the three cases holds. *)
Lemma malformed_assertion_exits_1 :
  let w := Sample.malformed_assertion_world in
  let st := Sample.empty_state in
  fst (main w st) = Raise IndexError
  /\ exit_status (fst (main w st)) = 1
  /\ ~ (password_login_reached w st /\ sign_in_failed_marker w)
  /\ ~ (password_login_reached w st /\ empty_password_entered w)
  /\ ~ no_assertion_obtained w st.
Proof.
  simpl.
  assert (Hnot : ~ password_login_reached Sample.malformed_assertion_world
                     Sample.empty_state).
  { unfold password_login_reached. simpl.
    intros (r & Hr & Ha). vm_compute in Hr. injection Hr as <-.
    vm_compute in Ha. discriminate. }
  split; [vm_compute; reflexivity|]. split; [vm_compute; reflexivity|].
  split; [tauto|]. split; [tauto|].
  unfold no_assertion_obtained. tauto.
Qed.

(** A response without the [sid] cookie: a KeyError, status 1 as well. *)
Lemma missing_sid_cookie_raises (w : World) (u pw : string) (st : state)
    (formresponse response : Response) :
  session_get w idp_entry_url ∅ = Returns formresponse ->
  session_post w
    (form_submit_url w idp_entry_url (url formresponse)
       (BeautifulSoup w (text formresponse)))
    (build_payload u pw (BeautifulSoup w (text formresponse)))
  = Returns response ->
  PyStr.str_in "Sign in failed!" (text response) = false ->
  cookies response !! "sid" = None ->
  fst (okta_password_login w u pw idp_entry_url st) = Raise (KeyError "sid").
Proof.
  intros Hg Hp Hm Hc.
  destruct (okta_password_login_run w u pw st) as (st' & _ & ->).
  by rewrite Hg, Hp, Hm, Hc.
Qed.

(** * Further properties *)

(** ** get_saml_assertion *)

Lemma first_SAMLResponse_head (inputs : list Tag) :
  first_SAMLResponse inputs
  = head (List.filter is_SAMLResponse inputs) ≫= (fun t => Tag_get t "value").
Proof.
  induction inputs as [|t inputs IH]; [done|]. simpl. unfold is_SAMLResponse at 1.
  destruct (bool_decide (Tag_get t "name" = Some "SAMLResponse")); [done|].
  apply IH.
Qed.

(** X1: the assertion is the [value] of the first tag named exactly
    "input" whose [name] is SAMLResponse, and nothing when there is no
    such tag or when that first tag has no [value], whatever follows it. *)
Theorem get_saml_assertion_first_match (w : World) (response : Response) :
  get_saml_assertion w response
  = head (List.filter is_SAMLResponse
            (find_all "input" (BeautifulSoup w (text response))))
    ≫= (fun t => Tag_get t "value").
Proof. unfold get_saml_assertion. apply first_SAMLResponse_head. Qed.

(** A first SAMLResponse input without a value hides a later one. *)
Lemma first_SAMLResponse_hidden :
  first_SAMLResponse MoreSample.two_saml_inputs = None.
Proof. reflexivity. Qed.

(** ** get_user_creds *)

(** X2: when [get_user_creds] returns, the password is not empty and is
    what was typed at the prompt "Password for <username>: "; the
    username is the argument if given, else OKTA_USERNAME if set, else
    what [raw_input] returned; no file was touched. *)
Theorem get_user_creds_returns (w : World) (st st' : state) (c : UserCreds) :
  get_user_creds w st = (Ok c, st') ->
  uc_password c <> ""
  /\ uc_password c
     = getpass w ("Password for " +:+ uc_username c +:+ ": ")
  /\ match args_username (args w) with
     | Some u => uc_username c = u
     | None =>
         match environ w !! "OKTA_USERNAME" with
         | Some u => uc_username c = u
         | None => raw_input w = Returns (uc_username c)
         end
     end
  /\ only_prints st st'.
Proof.
  unfold get_user_creds, bind, ret, lift, sys_exit, print, only_prints.
  destruct (args_username (args w)) as [u|]; simpl.
  - destruct (PyStr.len _ =? 0) eqn:Hl; simpl; [done|].
    intros [= <- <-]. simpl. split.
    { intros Hp. apply len_zero in Hp. congruence. }
    repeat split; try done. exists []. by rewrite app_nil_r.
  - destruct (environ w !! "OKTA_USERNAME") as [u|]; simpl.
    + destruct (PyStr.len _ =? 0) eqn:Hl; simpl; [done|].
      intros [= <- <-]. simpl. split.
      { intros Hp. apply len_zero in Hp. congruence. }
      repeat split; try done. exists []. by rewrite app_nil_r.
    + destruct (raw_input w) as [u|e]; simpl; [|done].
      destruct (PyStr.len _ =? 0) eqn:Hl; simpl; [done|].
      intros [= <- <-]. simpl. split.
      { intros Hp. apply len_zero in Hp. congruence. }
      repeat split; try done. by exists ["Username: "].
Qed.

Lemma get_user_creds_returns_witness :
  uc_username (mkUserCreds "bob" "s3cret") = "bob"
  /\ uc_password (mkUserCreds "bob" "s3cret") <> "".
Proof.
  destruct (get_user_creds_returns MoreSample.env_user_world
              Sample.empty_state Sample.empty_state
              (mkUserCreds "bob" "s3cret")) as (Hp & _ & Hu & _).
  - vm_compute. reflexivity.
  - split; [exact Hu | exact Hp].
Defined.

(** X3: an empty password ends the script: [get_user_creds] prints
    "Password must be provided" as its last line and exits with code 1,
    without touching a file. *)
Theorem get_user_creds_empty_password (w : World) (st : state) (u : string) :
  chosen_username w = Returns u ->
  getpass w ("Password for " +:+ u +:+ ": ") = "" ->
  fst (get_user_creds w st) = SysExit 1
  /\ last (stdout (snd (get_user_creds w st)))
     = Some "Password must be provided"
  /\ files (snd (get_user_creds w st)) = files st
  /\ ini_files (snd (get_user_creds w st)) = ini_files st.
Proof.
  unfold chosen_username, get_user_creds, bind, ret, lift, sys_exit, print.
  intros Hu Hp.
  destruct (args_username (args w)) as [u'|]; simpl.
  - injection Hu as ->. rewrite Hp. simpl. by rewrite last_snoc.
  - destruct (environ w !! "OKTA_USERNAME") as [u'|]; simpl.
    + injection Hu as ->. rewrite Hp. simpl. by rewrite last_snoc.
    + rewrite Hu. simpl. rewrite Hp. simpl. by rewrite last_snoc.
Qed.

Lemma get_user_creds_empty_password_witness :
  fst (get_user_creds MoreSample.empty_password_world Sample.empty_state)
  = SysExit 1.
Proof.
  apply (get_user_creds_empty_password MoreSample.empty_password_world
           Sample.empty_state "bob"); reflexivity.
Defined.

(** ** The session cache, written and read back *)

(** X4: a 25-character identifier that [write_sid_file] writes is the
    one [get_sid_from_file] then returns, when the codec of the locale
    reads the bytes of the identifier back as the identifier, the
    identifier holds no carriage return, and the path held no file (the
    umask leaving the owner's read bit on the file created) or a file of
    at most 25 characters that its owner may read and write.  A cache file
    created under a umask that takes the owner's read bit cannot be read
    back: the read ends in PermissionError. *)
Theorem write_then_read_sid (w : World) (path sid : string) (st : state) :
  String.length sid = 25%nat ->
  decode w sid = Returns sid ->
  PyStr.str_in carriage_return sid = false ->
  let st' := snd (write_sid_file w path sid st) in
  ((files st !! path = None
    /\ owner_may_read (Z.land 384 (Z.lnot (umask w))) = true
    \/ exists f, files st !! path = Some (RegularFile f)
                 /\ owner_may_read (mode f) = true
                 /\ owner_may_write (mode f) = true
                 /\ (String.length (content f) <= 25)%nat) ->
   fst (write_sid_file w path sid st) = Ok tt
   /\ fst (get_sid_from_file w path st') = Ok (Some sid))
  /\ (files st !! path = None ->
      owner_may_read (Z.land 384 (Z.lnot (umask w))) = false ->
      fst (write_sid_file w path sid st) = Ok tt
      /\ fst (get_sid_from_file w path st') = Raise (PermissionError path)).
Proof.
  intros Hlen Hd Hcr st'. unfold st'. split.
  - intros [[Hf Hr] | (f & Hf & Hr & Hw & Hl)].
    + rewrite write_sid_file_absent by done. simpl. split; [done|].
      erewrite get_sid_from_file_plain;
        [|apply lookup_insert_eq|done|done|done].
      simpl. unfold PyStr.len. rewrite Hlen. done.
    + rewrite (write_sid_file_existing _ _ _ _ f) by done. simpl.
      split; [done|].
      erewrite get_sid_from_file_plain;
        [|apply lookup_insert_eq|done| |];
        simpl; rewrite write_at_start_covers by lia; try done.
      unfold PyStr.len. rewrite Hlen. done.
  - intros Hf Hr. rewrite write_sid_file_absent by done. simpl.
    split; [done|]. rewrite get_sid_from_file_unfold. simpl.
    rewrite lookup_insert_eq. simpl. by rewrite Hr.
Qed.

Lemma write_then_read_sid_witness :
  fst (get_sid_from_file Sample.expired_session_world Sample.sid_path
         (snd (write_sid_file Sample.expired_session_world Sample.sid_path
                 Sample.new_sid25 Sample.cached_state)))
  = Ok (Some Sample.new_sid25).
Proof.
  destruct (write_then_read_sid Sample.expired_session_world Sample.sid_path
              Sample.new_sid25 Sample.cached_state) as ((_ & H) & _).
  - reflexivity.
  - reflexivity.
  - reflexivity.
  - right. exists (mkFile Sample.sid25 384). split; [reflexivity|].
    split; [reflexivity|]. split; [reflexivity|]. simpl. lia.
  - exact H.
Defined.

(** X5: [write_sid_file] never exits and leaves every other path, the
    credentials files and the output as they were.  It fails in three
    cases only, each leaving the whole state as it was: the path is a
    directory (IsADirectoryError), it holds a file its owner may not write
    (PermissionError), or it is barred (the error of the system). *)
Theorem write_sid_file_frame (w : World) (path sid : string) (st : state) :
  let r := write_sid_file w path sid st in
  (forall code, fst r <> SysExit code)
  /\ (forall p, p <> path -> files (snd r) !! p = files st !! p)
  /\ ini_files (snd r) = ini_files st
  /\ stdout (snd r) = stdout st
  /\ (forall e, fst r = Raise e ->
        snd r = st
        /\ match files st !! path with
           | Some (RegularFile f) =>
               owner_may_write (mode f) = false /\ e = PermissionError path
           | Some Directory => e = IsADirectoryError path
           | Some (Barred e') => e = e'
           | None => False
           end).
Proof.
  simpl. rewrite write_sid_file_cases.
  destruct (files st !! path) as [[f| |e0]|] eqn:Hf.
  - destruct (owner_may_write (mode f)) eqn:Hw; simpl.
    + split; [done|]. split; [|done].
      intros p Hp. by rewrite lookup_insert_ne.
    + do 4 (split; [done|]). intros e [= <-]. done.
  - simpl. do 4 (split; [done|]). intros e [= <-]. done.
  - simpl. do 4 (split; [done|]). intros e [= <-]. done.
  - simpl. split; [done|]. split; [|done].
    intros p Hp. by rewrite lookup_insert_ne.
Qed.

(** X6: a cache file that [write_sid_file] creates holds the identifier
    and nothing else, and its mode is 0o600 less the bits of the umask:
    no permission bit outside the owner's read and write is ever set. *)
Theorem write_sid_file_creates_private (w : World) (path sid : string)
    (st : state) :
  files st !! path = None ->
  exists m,
    files (snd (write_sid_file w path sid st)) !! path
    = Some (RegularFile (mkFile sid m))
    /\ m = Z.land 384 (Z.lnot (umask w))
    /\ Z.land m (Z.lnot 384) = 0.
Proof.
  intros Hf. rewrite write_sid_file_absent by done. simpl.
  rewrite lookup_insert_eq. eexists. split; [done|]. split; [done|].
  apply created_mode_owner_only.
Qed.

Lemma write_sid_file_creates_private_witness :
  files (snd (write_sid_file Sample.expired_session_world Sample.sid_path
                Sample.new_sid25 Sample.empty_state)) !! Sample.sid_path
  = Some (RegularFile (mkFile Sample.new_sid25 384)).
Proof.
  destruct (write_sid_file_creates_private Sample.expired_session_world
              Sample.sid_path Sample.new_sid25 Sample.empty_state)
    as (m & Hm & -> & _).
  - reflexivity.
  - exact Hm.
Defined.

(** ** Assertions that do not decode *)

(** Decoding never changes the state. *)
Lemma get_arns_from_assertion_state (w : World) (assertion : string)
    (st : state) :
  snd (get_arns_from_assertion w assertion st) = st.
Proof.
  unfold get_arns_from_assertion, bind, lift.
  destruct (fromstring_b64decode w assertion) as [root|e]; [|done].
  by destruct (arns_from_root root assertion).
Qed.

(** X7: an assertion that parses but lacks the pair is not reported as
    such: with no AttributeValue under a Role attribute decoding ends in
    UnboundLocalError, with an empty last value in AttributeError, with a
    last value without a comma in IndexError. *)
Theorem get_arns_from_assertion_faults (w : World) (assertion : string)
    (root : Element) (st : state) :
  fromstring_b64decode w assertion = Returns root ->
  (role_values root = [] ->
   get_arns_from_assertion w assertion st
   = (Raise (UnboundLocalError "arns"), st))
  /\ (last (role_values root) = Some None ->
      get_arns_from_assertion w assertion st = (Raise AttributeError, st))
  /\ (forall v, last (role_values root) = Some (Some v) ->
        PyStr.str_in "," v = false ->
        get_arns_from_assertion w assertion st = (Raise IndexError, st)).
Proof.
  intros Hd. unfold get_arns_from_assertion, bind, lift. rewrite Hd.
  unfold arns_from_root. rewrite arns_outer_last.
  split; [|split].
  - intros ->. done.
  - intros ->. done.
  - intros v -> Hv. unfold PyStr.split.
    rewrite (split_from_no_comma "" v) by done. done.
Qed.

Lemma get_arns_from_assertion_faults_witness :
  get_arns_from_assertion (MoreSample.decoding_world MoreSample.no_role_root)
    Sample.token Sample.empty_state
  = (Raise (UnboundLocalError "arns"), Sample.empty_state)
  /\ get_arns_from_assertion
       (MoreSample.decoding_world MoreSample.empty_value_root)
       Sample.token Sample.empty_state
     = (Raise AttributeError, Sample.empty_state)
  /\ get_arns_from_assertion (MoreSample.decoding_world Sample.no_comma_root)
       Sample.token Sample.empty_state
     = (Raise IndexError, Sample.empty_state).
Proof.
  split; [|split].
  - apply (get_arns_from_assertion_faults
             (MoreSample.decoding_world MoreSample.no_role_root) Sample.token
             MoreSample.no_role_root); reflexivity.
  - apply (get_arns_from_assertion_faults
             (MoreSample.decoding_world MoreSample.empty_value_root)
             Sample.token MoreSample.empty_value_root); reflexivity.
  - apply (get_arns_from_assertion_faults
             (MoreSample.decoding_world Sample.no_comma_root) Sample.token
             Sample.no_comma_root) with (v := "arn:aws:iam::111:role/Y");
      reflexivity.
Defined.

(** X8: of a last Role value with more than two components only the
    first two count: PrincipalArn is the first, RoleArn the second, and
    what follows the second comma is dropped. *)
Theorem get_arns_from_assertion_extra_components (w : World)
    (assertion : string) (root : Element) (p r rest : string) (st : state) :
  fromstring_b64decode w assertion = Returns root ->
  last (role_values root) = Some (Some (p +:+ "," +:+ r +:+ "," +:+ rest)) ->
  PyStr.str_in "," p = false -> PyStr.str_in "," r = false ->
  get_arns_from_assertion w assertion st
  = (Ok (mkArnDict r p assertion), st).
Proof.
  intros Hd Hl Hp Hr. unfold get_arns_from_assertion, bind, lift. rewrite Hd.
  unfold arns_from_root. rewrite arns_outer_last, Hl. unfold PyStr.split.
  rewrite (split_from_first_comma "" p) by done.
  rewrite (split_from_first_comma "" r) by done. done.
Qed.

Lemma get_arns_from_assertion_extra_components_witness :
  get_arns_from_assertion
    (MoreSample.decoding_world MoreSample.three_parts_root) Sample.token
    Sample.empty_state
  = (Ok (mkArnDict "arn:role/R" "arn:p" Sample.token), Sample.empty_state).
Proof.
  apply (get_arns_from_assertion_extra_components
           (MoreSample.decoding_world MoreSample.three_parts_root)
           Sample.token MoreSample.three_parts_root "arn:p" "arn:role/R"
           "extra"); reflexivity.
Defined.

(** ** From the assertion to the written profile *)







(** ** The login as a whole *)

Lemma only_prints_refl (st : state) : only_prints st st.
Proof. repeat split. exists []. by rewrite app_nil_r. Qed.

Lemma only_prints_trans (st1 st2 st3 : state) :
  only_prints st1 st2 -> only_prints st2 st3 -> only_prints st1 st3.
Proof.
  intros (Hf1 & Hi1 & l1 & Ho1) (Hf2 & Hi2 & l2 & Ho2).
  split; [congruence|]. split; [congruence|].
  exists (l1 ++ l2)%list. by rewrite Ho2, Ho1, app_assoc.
Qed.

Lemma only_prints_print (st : state) (line : string) :
  only_prints st (mkState (files st) (ini_files st) (stdout st ++ [line])).
Proof. repeat split. by exists [line]. Qed.

(** The first step of the password path, when a password is entered. *)
Lemma get_user_creds_ok (w : World) (st : state) (u : string) :
  chosen_username w = Returns u ->
  getpass w (password_prompt u) <> "" ->
  exists st1, only_prints st st1
    /\ get_user_creds w st
       = (Ok (mkUserCreds u (getpass w (password_prompt u))), st1).
Proof.
  intros Hu Hp.
  assert (Hl : (PyStr.len (getpass w (password_prompt u)) =? 0) = false).
  { destruct (PyStr.len _ =? 0) eqn:Hl; [|done]. by apply len_zero in Hl. }
  unfold chosen_username in Hu. unfold password_prompt in *.
  unfold get_user_creds, bind, ret, lift, sys_exit, print.
  destruct (args_username (args w)) as [u'|]; simpl.
  - injection Hu as ->. rewrite Hl. eexists. split; [apply only_prints_refl|done].
  - destruct (environ w !! "OKTA_USERNAME") as [u'|]; simpl.
    + injection Hu as ->. rewrite Hl. eexists.
      split; [apply only_prints_refl|done].
    + rewrite Hu. simpl. rewrite Hl. eexists.
      split; [apply only_prints_print|done].
Qed.

(** How [okta_password_login] ends once both requests are answered. *)
Lemma okta_password_login_outcome (w : World) (u pw : string) (st : state)
    (formresponse response : Response) :
  session_get w idp_entry_url ∅ = Returns formresponse ->
  session_post w
    (form_submit_url w idp_entry_url (url formresponse)
       (BeautifulSoup w (text formresponse)))
    (build_payload u pw (BeautifulSoup w (text formresponse)))
  = Returns response ->
  okta_password_login w u pw idp_entry_url st =
  if PyStr.str_in "Sign in failed!" (text response)
  then (SysExit 1,
        mkState (files st) (ini_files st) (stdout st ++ ["Sign in failed!"]))
  else match cookies response !! "sid" with
       | Some s => (Ok (mkLoginResult response s), st)
       | None => (Raise (KeyError "sid"), st)
       end.
Proof.
  intros Hg Hp. unfold okta_password_login, bind, lift. rewrite Hg, Hp.
  destruct (PyStr.str_in _ _); [done|].
  by destruct (cookies response !! "sid").
Qed.

Lemma login_when_reached (w : World) (st : state) :
  password_login_reached w st ->
  login w true (sid_cache_file_of w) st = password_path w st.
Proof.
  intros Hr. rewrite login_cases. unfold password_login_reached in Hr.
  destruct (sid_at_hand w st) as [[s|]|c|e]; try done.
  destruct Hr as (r & -> & ->). done.
Qed.

(** X11: with an identifier at hand that the identity provider accepts
    (the cookie login's page carries an assertion) the login ends with
    that assertion and leaves the state as it was: it prints nothing, not
    even the request for a username, and writes nothing, the cache
    included; [main] goes straight on to use the assertion. *)
Theorem login_with_valid_session (w : World) (st : state) (s a : string)
    (r : Response) :
  available_sid w st = Some s ->
  session_get w idp_entry_url (<["sid" := s]> ∅) = Returns r ->
  get_saml_assertion w r = Some a ->
  login w true (home w +:+ "/.okta_sid") st = (Ok (Some a), st)
  /\ main w st
     = use_assertion w (home w +:+ "/.aws/credentials") "us-west-2" "json"
         a st.
Proof.
  intros Hs Hg Ha.
  assert (Hl : login w true (sid_cache_file_of w) st = (Ok (Some a), st)).
  { by rewrite login_cases, (available_sid_at_hand _ _ _ Hs), Hg, Ha. }
  split; [exact Hl|]. rewrite main_unfold. unfold bind. by rewrite Hl.
Qed.

Lemma login_with_valid_session_witness :
  login Sample.two_roles_world true Sample.sid_path Sample.cached_state
  = (Ok (Some Sample.token), Sample.cached_state).
Proof.
  destruct (login_with_valid_session Sample.two_roles_world
              Sample.cached_state Sample.sid25 Sample.token
              (mkResponse idp_entry_url Sample.landing_page_text ∅))
    as [H _].
  - reflexivity.
  - reflexivity.
  - reflexivity.
  - exact H.
Defined.

(** X12: a rejected password ends the run before anything is written:
    when the password login is reached and its response carries the
    marker, [main] prints "Sign in failed!" as its last line and exits
    with code 1, and neither the session cache nor a credentials file has
    changed, whatever cookie or assertion the response holds. *)
Theorem main_sign_in_failed (w : World) (st : state) :
  password_login_reached w st ->
  sign_in_failed_marker w ->
  fst (main w st) = SysExit 1
  /\ last (stdout (snd (main w st))) = Some "Sign in failed!"
  /\ files (snd (main w st)) = files st
  /\ ini_files (snd (main w st)) = ini_files st.
Proof.
  intros Hr (u & fr & r & Hu & Hp & Hg & Hs & Hm).
  destruct (get_user_creds_ok w st u Hu Hp) as (st1 & (Hf & Hi & _) & Hc).
  assert (Hmain : main w st
    = (SysExit 1,
       mkState (files st1) (ini_files st1)
               (stdout st1 ++ ["Sign in failed!"]))).
  { rewrite main_unfold. unfold bind at 1.
    rewrite (login_when_reached _ _ Hr).
    unfold password_path. unfold bind at 1. rewrite Hc.
    unfold bind at 1. simpl uc_username. simpl uc_password.
    by rewrite (okta_password_login_outcome w u _ st1 fr r Hg Hs), Hm. }
  rewrite Hmain. simpl. by rewrite last_snoc.
Qed.

Lemma main_sign_in_failed_witness :
  fst (main MoreSample.rejecting_world Sample.cached_state) = SysExit 1
  /\ files (snd (main MoreSample.rejecting_world Sample.cached_state))
     = files Sample.cached_state.
Proof.
  destruct (main_sign_in_failed MoreSample.rejecting_world Sample.cached_state)
    as (H1 & _ & H2 & _).
  - exists (mkResponse idp_entry_url Sample.login_page_text ∅).
    split; reflexivity.
  - exists "alice", (mkResponse idp_entry_url Sample.login_page_text ∅),
      MoreSample.rejected_page.
    split; [reflexivity|]. split; [discriminate|].
    split; [reflexivity|]. split; reflexivity.
  - split; [exact H1 | exact H2].
Defined.

(** X13: a password-login response without the [sid] cookie ends the run
    in KeyError, before the response is searched for an assertion: when
    the password login is reached, a password is entered and the response
    has no marker and no [sid] cookie, [main] raises KeyError for "sid"
    and neither the session cache nor a credentials file has changed. *)
Theorem main_missing_sid_cookie (w : World) (st : state) (u : string)
    (formresponse response : Response) :
  password_login_reached w st ->
  chosen_username w = Returns u ->
  getpass w (password_prompt u) <> "" ->
  session_get w idp_entry_url ∅ = Returns formresponse ->
  session_post w
    (form_submit_url w idp_entry_url (url formresponse)
       (BeautifulSoup w (text formresponse)))
    (build_payload u (getpass w (password_prompt u))
       (BeautifulSoup w (text formresponse)))
  = Returns response ->
  PyStr.str_in "Sign in failed!" (text response) = false ->
  cookies response !! "sid" = None ->
  fst (main w st) = Raise (KeyError "sid")
  /\ files (snd (main w st)) = files st
  /\ ini_files (snd (main w st)) = ini_files st.
Proof.
  intros Hr Hu Hp Hg Hs Hm Hc.
  destruct (get_user_creds_ok w st u Hu Hp) as (st1 & (Hf & Hi & _) & Hcr).
  assert (Hmain : main w st = (Raise (KeyError "sid"), st1)).
  { rewrite main_unfold. unfold bind at 1.
    rewrite (login_when_reached _ _ Hr).
    unfold password_path. unfold bind at 1. rewrite Hcr.
    unfold bind at 1. simpl uc_username. simpl uc_password.
    by rewrite
      (okta_password_login_outcome w u _ st1 formresponse response Hg Hs),
      Hm, Hc. }
  by rewrite Hmain.
Qed.

Lemma main_missing_sid_cookie_witness :
  fst (main MoreSample.cookieless_world Sample.empty_state)
  = Raise (KeyError "sid")
  /\ get_saml_assertion MoreSample.cookieless_world MoreSample.cookieless_page
     = Some Sample.token.
Proof.
  destruct (main_missing_sid_cookie MoreSample.cookieless_world
              Sample.empty_state "alice"
              (mkResponse idp_entry_url Sample.login_page_text ∅)
              MoreSample.cookieless_page) as (H & _).
  - exact I.
  - reflexivity.
  - discriminate.
  - reflexivity.
  - reflexivity.
  - reflexivity.
  - reflexivity.
  - split; [exact H | reflexivity].
Defined.

(** ** What a run may change *)

Section Respects.

Context (R : state -> state -> Prop).
Hypothesis R_refl : forall st, R st st.
Hypothesis R_trans : forall a b c, R a b -> R b c -> R a c.

Lemma respects_ret {A} (a : A) : respects R (ret a).
Proof. intros st. apply R_refl. Qed.

Lemma respects_lift {A} (r : fallible A) : respects R (lift r).
Proof. intros st. unfold lift. destruct r; apply R_refl. Qed.

Lemma respects_raise {A} (e : exn) : respects R (@raise A e).
Proof. intros st. apply R_refl. Qed.

Lemma respects_sys_exit {A} (code : Z) : respects R (@sys_exit A code).
Proof. intros st. apply R_refl. Qed.

Lemma respects_get_state : respects R get_state.
Proof. intros st. apply R_refl. Qed.

Lemma respects_bind {A B} (m : M A) (k : A -> M B) :
  respects R m -> (forall a, respects R (k a)) -> respects R (bind m k).
Proof.
  intros Hm Hk st. unfold bind. specialize (Hm st).
  destruct (m st) as [[a|c|e] st1]; simpl in *; [|done..].
  eapply R_trans; [exact Hm | apply Hk].
Qed.

End Respects.

Ltac respects_step :=
  first [ apply respects_bind; [assumption | | intros ?]
        | apply respects_ret; assumption
        | apply respects_lift; assumption
        | apply respects_raise; assumption
        | apply respects_sys_exit; assumption
        | apply respects_get_state; assumption
        | assumption
        | match goal with
          | |- respects _ (match ?x with _ => _ end) => destruct x
          | |- respects _ (if ?x then _ else _) => destruct x
          end ].

Lemma touches_only_refl (w : World) (st : state) : touches_only w st st.
Proof. repeat split. exists []. by rewrite app_nil_r. Qed.

Lemma touches_only_trans (w : World) (a b c : state) :
  touches_only w a b -> touches_only w b c -> touches_only w a c.
Proof.
  intros (Hf1 & Hi1 & l1 & Ho1) (Hf2 & Hi2 & l2 & Ho2).
  split; [|split].
  - intros p Hp. by rewrite Hf2, Hf1.
  - intros p Hp. by rewrite Hi2, Hi1.
  - exists (l1 ++ l2)%list. by rewrite Ho2, Ho1, app_assoc.
Qed.

Lemma touches_only_print (w : World) (line : string) :
  respects (touches_only w) (print line).
Proof. intros st. repeat split. by exists [line]. Qed.

Lemma touches_only_write_sid_file (w : World) (sid : string) :
  respects (touches_only w) (write_sid_file w (home w +:+ "/.okta_sid") sid).
Proof.
  intros st. rewrite write_sid_file_cases.
  destruct (files st !! (home w +:+ "/.okta_sid")) as [[f| |e]|] eqn:Hf.
  - destruct (owner_may_write (mode f)); [|apply touches_only_refl].
    split; [|split; [done|]].
    + intros p Hp. simpl. by rewrite lookup_insert_ne.
    + exists []. simpl. by rewrite app_nil_r.
  - apply touches_only_refl.
  - apply touches_only_refl.
  - split; [|split; [done|]].
    + intros p Hp. simpl. by rewrite lookup_insert_ne.
    + exists []. simpl. by rewrite app_nil_r.
Qed.

Lemma touches_only_write_aws_creds (w : World)
    (profile ak sk tok region output : string) :
  respects (touches_only w)
    (write_aws_creds w (home w +:+ "/.aws/credentials") profile ak sk tok
       region output).
Proof.
  intros st.
  destruct (write_aws_creds_state w (home w +:+ "/.aws/credentials") profile
              ak sk tok region output st) as [[e ->]|(c & m & ->)].
  - apply touches_only_refl.
  - simpl. split; [done|]. split.
    + intros p Hp. simpl. by rewrite lookup_insert_ne.
    + exists []. simpl. by rewrite app_nil_r.
Qed.

Lemma touches_only_get_sid_from_file (w : World) (path : string) :
  respects (touches_only w) (get_sid_from_file w path).
Proof.
  intros st. destruct (get_sid_from_file_run w path st) as [-> _].
  apply touches_only_refl.
Qed.

(** X14: whatever the world and the initial state, [main] changes no
    text file other than ~/.okta_sid and no credentials file other than
    ~/.aws/credentials, and it only ever adds lines to its output. *)
Theorem main_touches_only (w : World) (st : state) :
  (forall p, p <> home w +:+ "/.okta_sid" ->
     files (snd (main w st)) !! p = files st !! p)
  /\ (forall p, p <> home w +:+ "/.aws/credentials" ->
        ini_files (snd (main w st)) !! p = ini_files st !! p)
  /\ exists lines, stdout (snd (main w st)) = (stdout st ++ lines)%list.
Proof.
  change (touches_only w st (snd (main w st))). revert st.
  change (respects (touches_only w) (main w)).
  pose proof (touches_only_refl w) as Hrefl.
  pose proof (touches_only_trans w) as Htrans.
  pose proof (touches_only_print w) as Hprint.
  pose proof (touches_only_write_sid_file w) as Hsid.
  pose proof (touches_only_write_aws_creds w) as Hcreds.
  pose proof (touches_only_get_sid_from_file w) as Hget.
  unfold main, login, use_assertion, get_user_creds, okta_password_login,
    okta_cookie_login, get_arns_from_assertion, get_sts_token.
  repeat first [ apply Hprint | apply Hsid | apply Hcreds | apply Hget
               | respects_step ].
Qed.

(** ** The cache and the credentials file after a run *)

Lemma same_files_refl (st : state) : same_files st st.
Proof. done. Qed.

Lemma same_files_trans (a b c : state) :
  same_files a b -> same_files b c -> same_files a c.
Proof. unfold same_files. congruence. Qed.

Lemma same_files_print (line : string) : respects same_files (print line).
Proof. by intros st. Qed.

Lemma same_files_write_aws_creds (w : World)
    (path profile ak sk tok region output : string) :
  respects same_files
    (write_aws_creds w path profile ak sk tok region output).
Proof.
  intros st.
  by destruct (write_aws_creds_state w path profile ak sk tok region output
                 st) as [[e ->]|(c & m & ->)].
Qed.

(** What follows the login leaves the text files alone. *)
Lemma same_files_after_login (w : World) (assertion : option string) :
  respects same_files (after_login w assertion).
Proof.
  pose proof same_files_refl as Hrefl.
  pose proof same_files_trans as Htrans.
  pose proof same_files_print as Hprint.
  pose proof (same_files_write_aws_creds w) as Hcreds.
  unfold after_login, use_assertion, get_arns_from_assertion, get_sts_token.
  repeat first [ apply Hprint | apply Hcreds | respects_step ].
Qed.

(** Writing the cache depends on the text files only. *)
Lemma write_sid_file_same_files (w : World) (path sid : string)
    (st st1 : state) :
  files st1 = files st ->
  fst (write_sid_file w path sid st1) = fst (write_sid_file w path sid st)
  /\ files (snd (write_sid_file w path sid st1))
     = files (snd (write_sid_file w path sid st)).
Proof.
  intros Hf. rewrite !write_sid_file_cases, Hf.
  destruct (files st !! path) as [[f| |e]|]; simpl; try done.
  by destruct (owner_may_write (mode f)).
Qed.

(** X15: the identifier is cached whether or not the response of the
    password login carries an assertion, before [main] looks at what the
    search for one has brought: when the password login is reached, a
    password is entered and the response has no marker and the cookie
    [sid], the text files after [main] are those [write_sid_file] leaves
    for that cookie, whatever becomes of the run after that. *)
Theorem main_caches_session (w : World) (st : state) (u newsid : string)
    (formresponse response : Response) :
  password_login_reached w st ->
  chosen_username w = Returns u ->
  getpass w (password_prompt u) <> "" ->
  session_get w idp_entry_url ∅ = Returns formresponse ->
  session_post w
    (form_submit_url w idp_entry_url (url formresponse)
       (BeautifulSoup w (text formresponse)))
    (build_payload u (getpass w (password_prompt u))
       (BeautifulSoup w (text formresponse)))
  = Returns response ->
  PyStr.str_in "Sign in failed!" (text response) = false ->
  cookies response !! "sid" = Some newsid ->
  files (snd (main w st))
  = files (snd (write_sid_file w (home w +:+ "/.okta_sid") newsid st)).
Proof.
  intros Hr Hu Hp Hg Hs Hm Hc.
  destruct (get_user_creds_ok w st u Hu Hp) as (st1 & (Hf & _ & _) & Hcr).
  assert (Hmain : main w st
    = (let* assertion :=
         (exec write_sid_file w (sid_cache_file_of w) newsid then
          ret (get_saml_assertion w response)) in
       after_login w assertion) st1).
  { rewrite main_unfold. unfold bind at 1.
    rewrite (login_when_reached _ _ Hr).
    unfold password_path. unfold bind at 1. rewrite Hcr.
    unfold bind at 1. simpl uc_username. simpl uc_password.
    rewrite
      (okta_password_login_outcome w u _ st1 formresponse response Hg Hs),
      Hm, Hc. reflexivity. }
  rewrite Hmain.
  destruct (write_sid_file_same_files w (sid_cache_file_of w) newsid st st1 Hf)
    as [_ Hfiles].
  unfold sid_cache_file_of in *. rewrite <- Hfiles.
  unfold bind at 1. unfold bind at 1.
  destruct (write_sid_file w (home w +:+ "/.okta_sid") newsid st1)
    as [[[]|c|e] st2]; [|done..].
  unfold ret. simpl.
  apply (same_files_after_login w (get_saml_assertion w response) st2).
Qed.

Lemma main_caches_session_witness :
  files (snd (main Sample.expired_session_world Sample.empty_state))
    !! Sample.sid_path
  = Some (RegularFile (mkFile Sample.new_sid25 384)).
Proof.
  rewrite (main_caches_session Sample.expired_session_world
             Sample.empty_state "alice" Sample.new_sid25
             (mkResponse idp_entry_url Sample.login_page_text ∅)
             (mkResponse
                "https://nimbusscale.okta.com/auth/submit"
                Sample.landing_page_text (<["sid" := Sample.new_sid25]> ∅))).
  - reflexivity.
  - exact I.
  - reflexivity.
  - discriminate.
  - reflexivity.
  - reflexivity.
  - reflexivity.
  - reflexivity.
Defined.

(** A successful run from the assertion on has written the file. *)
Lemma use_assertion_ok (w : World)
    (aws_config_file region output_format assertion : string)
    (st st' : state) :
  use_assertion w aws_config_file region output_format assertion st
  = (Ok tt, st') ->
  exists c m, ini_files st' !! aws_config_file
              = Some (RegularFile (mkFile (config_reread w c) m)).
Proof.
  unfold use_assertion. unfold bind at 1.
  pose proof (get_arns_from_assertion_state w assertion st) as Hst.
  destruct (get_arns_from_assertion w assertion st) as [[d|c|e0] st0];
    simpl in Hst; subst st0; [|done..].
  unfold bind at 1. unfold get_sts_token, lift at 1.
  destruct (assume_role_with_saml w _ _ _) as [creds|e0]; [|done].
  unfold bind at 1.
  assert (Hp : exists x, (match args_profile (args w) with
                          | Some p => ret p
                          | None => lift (py_index
                                            (PyStr.split "/" (RoleArn d)) 1)
                          end) st = (x, st)).
  { destruct (args_profile (args w)); [by eexists|].
    unfold lift. destruct (py_index _ _); by eexists. }
  destruct Hp as [x ->]. destruct x as [p|c|e0]; [|done..].
  unfold bind at 1.
  destruct (write_aws_creds_state w aws_config_file p (AccessKeyId creds)
              (SecretAccessKey creds) (SessionToken creds) region
              output_format st) as [[e ->]|(c & m & ->)]; [done|].
  destruct (args_verbose (args w)); intros [= <-]; simpl;
    rewrite lookup_insert_eq; eauto.
Qed.

(** X16: [main] runs to its end (exit status 0) only after it has
    obtained an assertion and written ~/.aws/credentials: whenever it
    returns, that path holds a regular file with a configuration the
    script has printed. *)
Theorem main_success_writes_credentials (w : World) (st : state) :
  fst (main w st) = Ok tt ->
  exists c m, ini_files (snd (main w st)) !! (home w +:+ "/.aws/credentials")
              = Some (RegularFile (mkFile (config_reread w c) m)).
Proof.
  destruct (main w st) as [x st'] eqn:Hmain. simpl. intros ->.
  rewrite main_unfold in Hmain. unfold bind in Hmain.
  destruct (login w true (sid_cache_file_of w) st) as [[[a|]|c|e] st1];
    [| |done..].
  - by apply use_assertion_ok in Hmain.
  - done.
Qed.

Lemma main_success_writes_credentials_witness :
  exists c m, ini_files (snd (main Sample.expired_session_world
                                Sample.cached_state))
                !! Sample.creds_path
              = Some (RegularFile
                        (mkFile (config_reread Sample.expired_session_world c)
                                m)).
Proof.
  apply (main_success_writes_credentials Sample.expired_session_world
           Sample.cached_state).
  vm_compute. reflexivity.
Defined.

(** ** The payload, the minutes and a first credentials file *)

(** X17: the payload holds an entry under [n] exactly when some input
    field of the page is named [n] (a field without a name counts as
    named by the empty string); the value under a name that does not
    contain "pass", or that contains "user", is the username or the value
    of a field of that name, so the password goes under names with "pass"
    and without "user" only. *)
Theorem payload_entries_come_from_fields (u p : string) (soup : list Tag)
    (n : string) :
  (is_Some (build_payload u p soup !! n) <->
   exists t, In t (find_all_re ["INPUT"; "input"] soup)
             /\ Tag_get_default t "name" "" = n)
  /\ (forall v, build_payload u p soup !! n = Some v ->
        PyStr.str_in "pass" (PyStr.lower n) = false
        \/ PyStr.str_in "user" (PyStr.lower n) = true ->
        v = u
        \/ exists t, In t (find_all_re ["INPUT"; "input"] soup)
                     /\ Tag_get_default t "name" "" = n
                     /\ v = Tag_get_default t "value" "").
Proof.
  split; [apply build_payload_dom|].
  intros v Hv Hn. rewrite build_payload_lookup in Hv.
  apply fmap_Some in Hv as (t & Hl & ->).
  apply last_Some in Hl as [l' Hl].
  assert (Ht : In t (fields_named n (find_all_re ["INPUT"; "input"] soup))).
  { rewrite Hl. apply in_or_app. right. by left. }
  apply List.filter_In in Ht as [Hin Hname%String.eqb_eq].
  unfold field_name in Hname. unfold field_value. rewrite Hname.
  destruct (PyStr.str_in "user" (PyStr.lower n)); [by left|].
  destruct Hn as [Hn|Hn]; [|done]. rewrite Hn. right. eauto.
Qed.

(** X18: for a remaining validity of less than 2^26 minutes in either
    direction, the minute count is positive exactly when the credentials
    have not expired yet, and it is at most zero once they have. *)
Theorem valid_minutes_positive_iff (expiration now : Z) :
  Z.abs (expiration - now) < 2 ^ 26 * one_minute ->
  (0 < valid_minutes expiration now <-> now < expiration)
  /\ (expiration <= now -> valid_minutes expiration now <= 0).
Proof.
  intros Hd. unfold valid_minutes.
  pose proof (ceil_true_div_small (expiration - now) one_minute) as H.
  unfold one_minute in *.
  specialize (H ltac:(lia) ltac:(done) ltac:(lia)).
  split; [split|]; intros; nia.
Qed.

Lemma valid_minutes_positive_iff_witness :
  (0 < valid_minutes 90000000 0 <-> 0 < 90000000)
  /\ valid_minutes 0 90000000 = -1.
Proof.
  split; [|reflexivity].
  apply (valid_minutes_positive_iff 90000000 0). vm_compute. reflexivity.
Defined.


